(** * CTViewer test-data generators: volume layout and metadata

    A shallow embedding of the two generator scripts of the repository,
    [generate_simple_test.py] (pure Python, [bytearray] based) and
    [generate_test_data.py] (NumPy based), together with the properties
    of the volumes and metadata sidecars they write.

    Python integers are [Z]; a [bytearray] is a [list Z] whose [append]
    checks the byte range; a NumPy array is its dtype, its shape and its
    C-order buffer; [float64] values are the primitive binary64 floats.
    A raised exception is [None] in the option monad, and a [for] loop
    is [for_each] over the list that [range] produces.  The files on
    disk are a finite map from paths to contents.  The progress
    messages printed by the scripts are not part of the model. *)

From Stdlib Require Import ZArith Lia.
From Stdlib Require Import Floats.PrimFloat Floats.SpecFloat Floats.FloatOps.
From Stdlib Require Import Numbers.Cyclic.Int63.Uint63.
From stdpp Require Import base option list strings gmap.

Set Warnings "-register-all,-clear-no-such-hyp".
Local Open Scope Z_scope.

(** ** Python primitives *)

Module Py.

(** [range(n)]: the integers [0, 1, ..., n-1] (empty when [n <= 0]). *)
Definition range (n : Z) : list Z := seqZ 0 n.

(** [for k in ks: s = body k s], stopping at the first exception. *)
Fixpoint for_each {A S : Type} (ks : list A) (body : A → S → option S)
    (s : S) : option S :=
  match ks with
  | [] => Some s
  | k :: ks' => s' ← body k s; for_each ks' body s'
  end.

(** [a // b] on integers: floor division, [ZeroDivisionError] when
    [b = 0]. *)
Definition floordiv (a b : Z) : option Z :=
  if b =? 0 then None else Some (a / b).

(** [data.append(v)] on a [bytearray]: [ValueError] unless
    [0 <= v < 256]. *)
Definition append (data : list Z) (v : Z) : option (list Z) :=
  if (0 <=? v) && (v <? 256) then Some (data ++ [v]) else None.

(** Conversion of a Python integer to [float64]; exact for the
    magnitudes below [2^53] that occur here. *)
Definition float_of_int (n : Z) : float :=
  if 0 <=? n then PrimFloat.of_uint63 (Uint63.of_Z n)
  else PrimFloat.opp (PrimFloat.of_uint63 (Uint63.of_Z (- n))).

(** [int(f)] on a float: truncation towards zero; an exception on
    infinities and NaN. *)
Definition int_of_float (f : float) : option Z :=
  match Prim2SF f with
  | S754_zero _ => Some 0
  | S754_finite s m e =>
      let mag := match e with
                 | Z0 => Zpos m
                 | Zpos p => Z.shiftl (Zpos m) (Zpos p)
                 | Zneg p => Z.shiftr (Zpos m) (Zpos p)
                 end in
      Some (if s then - mag else mag)
  | S754_infinity _ | S754_nan => None
  end.

End Py.

Import Py.

(** ** The JSON values of the metadata sidecar *)

Inductive json : Type :=
  | JInt (n : Z)
  | JFloat (f : float)
  | JStr (s : string)
  | JList (l : list json).

(** A Python [dict] literal keeps its keys in the order written, so the
    metadata is an association list. *)
Definition metadata_dict : Type := list (string * json).

Fixpoint dict_get (m : metadata_dict) (key : string) : option json :=
  match m with
  | [] => None
  | (k, v) :: m' => if String.eqb k key then Some v else dict_get m' key
  end.

(** What one generator function leaves on disk: the raw file and the
    dictionary passed to [json.dump]. *)
Record volume_files : Type := {
  raw_path : string;
  raw_bytes : list Z;
  json_path : string;
  metadata : metadata_dict
}.

(** The reader's side of the contract: element size of a [dataType]
    tag, and the byte length that a metadata record announces. *)
Definition dataType_size (tag : string) : option Z :=
  if String.eqb tag "uint8" then Some 1
  else if String.eqb tag "uint16" then Some 2
  else None.

Definition declared_dimensions (m : metadata_dict) : option (Z * Z * Z) :=
  match dict_get m "dimensions" with
  | Some (JList [JInt w; JInt h; JInt d]) => Some (w, h, d)
  | _ => None
  end.

Definition declared_byte_length (m : metadata_dict) : option Z :=
  match declared_dimensions m, dict_get m "dataType" with
  | Some (w, h, d), Some (JStr tag) =>
      sz ← dataType_size tag; Some (w * h * d * sz)
  | _, _ => None
  end.

(** The voxel at index [(x, y, z)] of a flat sequence read with [x]
    fastest and [z] slowest, as the metadata's (width, height, depth)
    announces it. *)
Definition flat_position (width height x y z : Z) : nat :=
  Z.to_nat ((z * height + y) * width + x).

Definition voxel_at (data : list Z) (width height x y z : Z) : option Z :=
  data !! flat_position width height x y z.

(** ** generate_simple_test.py *)

Module SimpleTest.

(** The loop nest of [create_simple_test_volume], lines 21-28, as a
    function of the three local variables [width], [height], [depth]. *)
Definition gradient_data (width height depth : Z) : option (list Z) :=
  for_each (range depth) (λ z data,
    for_each (range height) (λ y data,
      for_each (range width) (λ x data,
        value ← floordiv (z * 255) (depth - 1);
        append data value) data) data) [].

Definition create_simple_test_volume : option volume_files :=
  let '(width, height, depth) := (16, 16, 16) in
  data ← gradient_data width height depth;
  Some {| raw_path := "test-data/simple_test.raw";
          raw_bytes := data;
          json_path := "test-data/simple_test.json";
          metadata :=
            [("dimensions", JList [JInt width; JInt height; JInt depth]);
             ("dataType", JStr "uint8");
             ("byteOrder", JStr "little-endian");
             ("spacing", JList [JFloat 1.0; JFloat 1.0; JFloat 1.0]);
             ("description", JStr "Simple 16x16x16 gradient test volume")] |}.

(** The value of one checkerboard cell, lines 62-65. *)
Definition checker_value (x y z : Z) : Z :=
  let bx := (x / 8) mod 2 in
  let by_ := (y / 8) mod 2 in
  let bz := (z / 8) mod 2 in
  if (bx + by_ + bz) mod 2 =? 0 then 255 else 0.

Definition checker_data (width height depth : Z) : option (list Z) :=
  for_each (range depth) (λ z data,
    for_each (range height) (λ y data,
      for_each (range width) (λ x data,
        append data (checker_value x y z)) data) data) [].

Definition create_checkerboard_test : option volume_files :=
  let '(width, height, depth) := (32, 32, 32) in
  data ← checker_data width height depth;
  Some {| raw_path := "test-data/checker_test.raw";
          raw_bytes := data;
          json_path := "test-data/checker_test.json";
          metadata :=
            [("dimensions", JList [JInt width; JInt height; JInt depth]);
             ("dataType", JStr "uint8");
             ("byteOrder", JStr "little-endian");
             ("spacing", JList [JFloat 1.0; JFloat 1.0; JFloat 1.0]);
             ("description", JStr "32x32x32 checkerboard pattern")] |}.

End SimpleTest.

(** ** The part of NumPy that generate_test_data.py uses *)

Module Numpy.

Inductive dtype : Type := uint8 | uint16.

Definition itemsize (dt : dtype) : Z :=
  match dt with uint8 => 1 | uint16 => 2 end.

Definition dtype_max (dt : dtype) : Z := 2 ^ (8 * itemsize dt) - 1.

Definition dtype_name (dt : dtype) : string :=
  match dt with uint8 => "uint8" | uint16 => "uint16" end.

(** A three-dimensional array: element type, shape and the buffer in
    C order (last index fastest), which is what [np.zeros] allocates. *)
Record ndarray : Type := {
  nd_dtype : dtype;
  nd_shape : Z * Z * Z;
  nd_buffer : list Z
}.

Definition zeros (shape : Z * Z * Z) (dt : dtype) : ndarray :=
  let '(s0, s1, s2) := shape in
  {| nd_dtype := dt; nd_shape := shape;
     nd_buffer := replicate (Z.to_nat (s0 * s1 * s2)) 0 |}.

(** One index along an axis of length [size]: negative indices count
    from the end, anything else is an [IndexError]. *)
Definition axis_index (size i : Z) : option Z :=
  if (0 <=? i) && (i <? size) then Some i
  else if (- size <=? i) && (i <? 0) then Some (i + size)
  else None.

Definition offset (a : ndarray) (idx : Z * Z * Z) : option nat :=
  let '(s0, s1, s2) := nd_shape a in
  let '(i, j, k) := idx in
  i' ← axis_index s0 i;
  j' ← axis_index s1 j;
  k' ← axis_index s2 k;
  Some (Z.to_nat ((i' * s1 + j') * s2 + k')).

(** [a[i, j, k]] *)
Definition getitem (a : ndarray) (idx : Z * Z * Z) : option Z :=
  p ← offset a idx; nd_buffer a !! p.

(** [a[i, j, k] = v] for a Python integer [v]: an [OverflowError] when
    [v] does not fit the element type. *)
Definition setitem (a : ndarray) (idx : Z * Z * Z) (v : Z) : option ndarray :=
  p ← offset a idx;
  if (0 <=? v) && (v <=? dtype_max (nd_dtype a)) then
    Some {| nd_dtype := nd_dtype a; nd_shape := nd_shape a;
            nd_buffer := <[p := v]> (nd_buffer a) |}
  else None.

(** [a[:, :, k] = v]: the scalar is stored at every index of the first
    two axes. *)
Definition setitem_last_axis (a : ndarray) (k v : Z) : option ndarray :=
  let '(s0, s1, _) := nd_shape a in
  for_each (range s0) (λ i a,
    for_each (range s1) (λ j a, setitem a (i, j, k) v) a) a.

(** The bytes of one element, least significant first. *)
Definition le_bytes (dt : dtype) (v : Z) : list Z :=
  match dt with
  | uint8 => [v]
  | uint16 => [v mod 256; (v / 256) mod 256]
  end.

(** [a.tofile(path)]: the buffer in C order, each element in the byte
    order of the host, taken to be little-endian as the metadata says. *)
Definition tofile (a : ndarray) : list Z :=
  nd_buffer a ≫= le_bytes (nd_dtype a).

End Numpy.

Import Numpy.

(** ** generate_test_data.py *)

Module TestData.

(** Lines 15-19 of [create_test_volume_uint8]. *)
Definition gradient_volume : option ndarray :=
  let volume := zeros (64, 64, 64) uint8 in
  for_each (range 64) (λ z volume,
    setitem_last_axis volume z (z * 4)) volume.

Definition create_test_volume_uint8 : option volume_files :=
  volume ← gradient_volume;
  Some {| raw_path := "test_volume_uint8.raw";
          raw_bytes := tofile volume;
          json_path := "test_volume_uint8.json";
          metadata :=
            [("dimensions", JList [JInt 64; JInt 64; JInt 64]);
             ("dataType", JStr "uint8");
             ("byteOrder", JStr "little-endian");
             ("spacing", JList [JFloat 1.0; JFloat 1.0; JFloat 1.0]);
             ("description", JStr "Test gradient volume (uint8)")] |}.

(** Line 52: [np.sqrt((x-center)**2 + (y-center)**2 + (z-center)**2)]. *)
Definition distance (center x y z : Z) : float :=
  PrimFloat.sqrt
    (float_of_int ((x - center) ^ 2 + (y - center) ^ 2 + (z - center) ^ 2)).

(** Line 54: [int((1 - dist/radius) * 4095)]. *)
Definition falloff (radius : Z) (dist : float) : option Z :=
  int_of_float
    (PrimFloat.mul
       (PrimFloat.sub (float_of_int 1)
          (PrimFloat.div dist (float_of_int radius)))
       (float_of_int 4095)).

(** Lines 43-54 of [create_test_volume_uint16]. *)
Definition sphere_volume : option ndarray :=
  let volume := zeros (32, 32, 32) uint16 in
  let center := 16 in
  let radius := 12 in
  for_each (range 32) (λ z volume,
    for_each (range 32) (λ y volume,
      for_each (range 32) (λ x volume,
        let dist := distance center x y z in
        if PrimFloat.ltb dist (float_of_int radius) then
          v ← falloff radius dist;
          setitem volume (x, y, z) v
        else Some volume) volume) volume) volume.

Definition create_test_volume_uint16 : option volume_files :=
  volume ← sphere_volume;
  Some {| raw_path := "test_volume_uint16.raw";
          raw_bytes := tofile volume;
          json_path := "test_volume_uint16.json";
          metadata :=
            [("dimensions", JList [JInt 32; JInt 32; JInt 32]);
             ("dataType", JStr "uint16");
             ("byteOrder", JStr "little-endian");
             ("spacing", JList [JFloat 1.0; JFloat 1.0; JFloat 1.0]);
             ("description", JStr "Test sphere volume (uint16)")] |}.

(** Lines 78-89 of [create_test_volume_checker]. *)
Definition checker_volume : option ndarray :=
  let volume := zeros (64, 64, 64) uint8 in
  let block_size := 8 in
  for_each (range 64) (λ z volume,
    for_each (range 64) (λ y volume,
      for_each (range 64) (λ x volume,
        let bx := (x / block_size) mod 2 in
        let by_ := (y / block_size) mod 2 in
        let bz := (z / block_size) mod 2 in
        if (bx + by_ + bz) mod 2 =? 0 then setitem volume (x, y, z) 255
        else Some volume) volume) volume) volume.

Definition create_test_volume_checker : option volume_files :=
  volume ← checker_volume;
  Some {| raw_path := "test_volume_checker.raw";
          raw_bytes := tofile volume;
          json_path := "test_volume_checker.json";
          metadata :=
            [("dimensions", JList [JInt 64; JInt 64; JInt 64]);
             ("dataType", JStr "uint8");
             ("byteOrder", JStr "little-endian");
             ("spacing", JList [JFloat 1.0; JFloat 1.0; JFloat 1.0]);
             ("description", JStr "3D checkerboard pattern")] |}.

End TestData.

(** ** Loops *)

Section Loops.
Context {A S : Type}.
Implicit Types (body : A → S → option S) (ks : list A).

Lemma for_each_ext body1 body2 ks s :
  (∀ k s', k ∈ ks → body1 k s' = body2 k s') →
  for_each ks body1 s = for_each ks body2 s.
Proof.
  revert s. induction ks as [|k ks IH]; intros s Hb; simpl; [done|].
  rewrite Hb by left. destruct (body2 k s); simpl; [|done].
  apply IH. intros k' s' Hk'. apply Hb. by right.
Qed.

Lemma for_each_app ks1 ks2 body s :
  for_each (ks1 ++ ks2) body s
  = s' ← for_each ks1 body s; for_each ks2 body s'.
Proof.
  revert s. induction ks1 as [|k ks1 IH]; intros s; simpl; [done|].
  destruct (body k s); simpl; auto.
Qed.

Lemma for_each_bind {B} (f : B → list A) (l : list B) body s :
  for_each (l ≫= f) body s
  = for_each l (λ b s', for_each (f b) body s') s.
Proof.
  revert s. induction l as [|b l IH]; intros s; [done|].
  rewrite bind_cons, for_each_app. simpl.
  destruct (for_each (f b) body s); simpl; auto.
Qed.

Lemma for_each_fmap {B} (g : B → A) (l : list B) body s :
  for_each (g <$> l) body s = for_each l (λ b s', body (g b) s') s.
Proof.
  revert s. induction l as [|b l IH]; intros s; simpl; [done|].
  destruct (body (g b) s); simpl; auto.
Qed.
End Loops.

(** The index triples [(x, y, z)] in the order in which a loop nest
    [for z ... for y ... for x ...] visits them. *)
Definition keys3 (nz ny nx : Z) : list (Z * Z * Z) :=
  range nz ≫= λ z, range ny ≫= λ y, (λ x, (x, y, z)) <$> range nx.

Lemma for_each_nest3 {S} (B : Z → Z → Z → S → option S) nz ny nx s :
  for_each (range nz) (λ z s,
    for_each (range ny) (λ y s,
      for_each (range nx) (λ x s, B x y z s) s) s) s
  = for_each (keys3 nz ny nx) (λ k s, B k.1.1 k.1.2 k.2 s) s.
Proof.
  unfold keys3. rewrite for_each_bind.
  apply for_each_ext; intros z s1 _.
  rewrite for_each_bind.
  apply for_each_ext; intros y s2 _.
  by rewrite for_each_fmap.
Qed.

Lemma elem_of_range n i : i ∈ range n ↔ 0 ≤ i < n.
Proof. unfold range. rewrite elem_of_seqZ. lia. Qed.

Lemma elem_of_keys3 nz ny nx x y z :
  (x, y, z) ∈ keys3 nz ny nx ↔ 0 ≤ x < nx ∧ 0 ≤ y < ny ∧ 0 ≤ z < nz.
Proof.
  unfold keys3. rewrite list_elem_of_bind. split.
  - intros (z' & Hin & Hz). apply list_elem_of_bind in Hin as (y' & Hin & Hy).
    apply list_elem_of_fmap in Hin as (x' & Heq & Hx).
    injection Heq as -> -> ->. by rewrite !elem_of_range in *.
  - intros (Hx & Hy & Hz). exists z. split; [|by apply elem_of_range].
    apply list_elem_of_bind. exists y. split; [|by apply elem_of_range].
    apply list_elem_of_fmap. exists x. split; [done|by apply elem_of_range].
Qed.

Lemma NoDup_keys3 nz ny nx : NoDup (keys3 nz ny nx).
Proof.
  unfold keys3. apply NoDup_bind; [| |apply NoDup_seqZ].
  - intros z1 z2 k _ _ H1 H2.
    apply list_elem_of_bind in H1 as (y1 & H1 & _).
    apply list_elem_of_bind in H2 as (y2 & H2 & _).
    apply list_elem_of_fmap in H1 as (x1 & -> & _).
    apply list_elem_of_fmap in H2 as (x2 & Heq & _). congruence.
  - intros z _. apply NoDup_bind; [| |apply NoDup_seqZ].
    + intros y1 y2 k _ _ H1 H2.
      apply list_elem_of_fmap in H1 as (x1 & -> & _).
      apply list_elem_of_fmap in H2 as (x2 & Heq & _). congruence.
    + intros y _. apply NoDup_fmap_2_strong; [|apply NoDup_seqZ].
      intros x1 x2 _ _ Heq. congruence.
Qed.

(** Blocks of one common length, laid end to end. *)
Lemma length_bind_uniform {A B} (f : A → list B) (l : list A) (n : nat) :
  (∀ a, a ∈ l → length (f a) = n) →
  length (l ≫= f) = (length l * n)%nat.
Proof.
  induction l as [|a l IH]; intros Hn; [done|].
  rewrite bind_cons, length_app, Hn by left. simpl.
  rewrite IH; [lia|]. intros a' Ha'. apply Hn. by right.
Qed.

Lemma lookup_bind_uniform {A B} (f : A → list B) (l : list A) (n i j : nat) a :
  (∀ a', a' ∈ l → length (f a') = n) →
  l !! i = Some a → (j < n)%nat →
  (l ≫= f) !! (i * n + j)%nat = f a !! j.
Proof.
  revert i. induction l as [|a0 l IH]; intros i Hn Hi Hj; [done|].
  rewrite bind_cons. destruct i as [|i]; simpl in *.
  - injection Hi as ->. apply lookup_app_l. rewrite Hn by left. done.
  - rewrite lookup_app_r; rewrite Hn by left; [|lia].
    replace (n + i * n + j - n)%nat with (i * n + j)%nat by lia.
    apply IH; [|done..]. intros a' Ha'. apply Hn. by right.
Qed.

Lemma lookup_range n i : 0 ≤ i < n → range n !! Z.to_nat i = Some i.
Proof.
  intros Hi. unfold range. rewrite lookup_seqZ_lt by lia. f_equal. lia.
Qed.

Lemma length_range n : length (range n) = Z.to_nat n.
Proof. apply length_seqZ. Qed.

Lemma length_keys3 nz ny nx :
  length (keys3 nz ny nx) = (Z.to_nat nz * (Z.to_nat ny * Z.to_nat nx))%nat.
Proof.
  unfold keys3.
  rewrite (length_bind_uniform _ _ (Z.to_nat ny * Z.to_nat nx)).
  - by rewrite length_range.
  - intros z _. rewrite (length_bind_uniform _ _ (Z.to_nat nx)).
    + by rewrite length_range.
    + intros y _. by rewrite length_fmap, length_range.
Qed.

Lemma lookup_keys3 nz ny nx x y z :
  0 ≤ x < nx → 0 ≤ y < ny → 0 ≤ z < nz →
  keys3 nz ny nx !! flat_position nx ny x y z = Some (x, y, z).
Proof.
  intros Hx Hy Hz. unfold flat_position, keys3.
  replace (Z.to_nat ((z * ny + y) * nx + x))
    with (Z.to_nat z * (Z.to_nat ny * Z.to_nat nx)
          + (Z.to_nat y * Z.to_nat nx + Z.to_nat x))%nat by nia.
  rewrite (lookup_bind_uniform _ _ _ _ _ z); [| |by apply lookup_range|nia].
  - rewrite (lookup_bind_uniform _ _ _ _ _ y); [| |by apply lookup_range|lia].
    + rewrite list_lookup_fmap, lookup_range by done. done.
    + intros y' _. by rewrite length_fmap, length_range.
  - intros z' _. rewrite (length_bind_uniform _ _ (Z.to_nat nx)).
    + by rewrite length_range.
    + intros y' _. by rewrite length_fmap, length_range.
Qed.

(** ** What generate_simple_test.py writes *)

Lemma for_each_appends {A} (body : A → list Z → option (list Z)) (g : A → Z)
    (ks : list A) (d0 : list Z) :
  (∀ k d, k ∈ ks → body k d = Some (d ++ [g k])) →
  for_each ks body d0 = Some (d0 ++ (g <$> ks)).
Proof.
  revert d0. induction ks as [|k ks IH]; intros d0 Hb; simpl.
  - by rewrite app_nil_r.
  - rewrite Hb by left. simpl. rewrite IH.
    + by rewrite <- app_assoc.
    + intros k' d Hk'. apply Hb. by right.
Qed.

Lemma append_byte data v : 0 ≤ v < 256 → append data v = Some (data ++ [v]).
Proof.
  intros Hv. unfold append.
  destruct (Z.leb_spec 0 v), (Z.ltb_spec v 256); simpl; (done || lia).
Qed.

Lemma voxel_at_fmap_keys3 (g : Z * Z * Z → Z) width height depth x y z :
  0 ≤ x < width → 0 ≤ y < height → 0 ≤ z < depth →
  voxel_at (g <$> keys3 depth height width) width height x y z
  = Some (g (x, y, z)).
Proof.
  intros Hx Hy Hz. unfold voxel_at.
  by rewrite list_lookup_fmap, lookup_keys3.
Qed.

Lemma length_fmap_keys3 (g : Z * Z * Z → Z) width height depth :
  0 ≤ width → 0 ≤ height → 0 ≤ depth →
  Z.of_nat (length (g <$> keys3 depth height width)) = width * height * depth.
Proof. intros. rewrite length_fmap, length_keys3. nia. Qed.

Module SimpleTestFacts.
Import SimpleTest.

(** The scaled gradient stays inside a byte whenever the divisor is
    positive. *)
Lemma gradient_value_byte depth z :
  0 ≤ z < depth → depth ≠ 1 →
  floordiv (z * 255) (depth - 1) = Some (z * 255 / (depth - 1))
  ∧ 0 ≤ z * 255 / (depth - 1) < 256.
Proof.
  intros Hz Hd. unfold floordiv.
  destruct (Z.eqb_spec (depth - 1) 0); [lia|]. split; [done|]. split.
  - apply Z.div_pos; lia.
  - apply Z.div_lt_upper_bound; lia.
Qed.

Lemma gradient_data_eq width height depth :
  depth ≠ 1 →
  gradient_data width height depth
  = Some ((λ k, k.2 * 255 / (depth - 1)) <$> keys3 depth height width).
Proof.
  intros Hd. unfold gradient_data.
  rewrite (for_each_nest3 (λ x y z data,
    value ← floordiv (z * 255) (depth - 1); append data value)).
  rewrite (for_each_appends _ (λ k, k.2 * 255 / (depth - 1))); [done|].
  intros [[x y] z] d Hk. apply elem_of_keys3 in Hk as (_ & _ & Hz). simpl.
  destruct (gradient_value_byte depth z Hz Hd) as [-> Hb]. simpl.
  by apply append_byte.
Qed.

Lemma checker_value_cases x y z :
  checker_value x y z = 255 ∨ checker_value x y z = 0.
Proof. unfold checker_value. destruct (_ =? 0); auto. Qed.

Lemma checker_data_eq width height depth :
  checker_data width height depth
  = Some ((λ k, checker_value k.1.1 k.1.2 k.2) <$> keys3 depth height width).
Proof.
  unfold checker_data.
  rewrite (for_each_nest3 (λ x y z data, append data (checker_value x y z))).
  rewrite (for_each_appends _ (λ k, checker_value k.1.1 k.1.2 k.2)); [done|].
  intros [[x y] z] d _. simpl. apply append_byte.
  destruct (checker_value_cases x y z) as [-> | ->]; lia.
Qed.

Lemma create_simple_test_volume_eq :
  ∃ out, create_simple_test_volume = Some out
    ∧ raw_bytes out = (λ k, k.2 * 255 / 15) <$> keys3 16 16 16
    ∧ metadata out =
        [("dimensions", JList [JInt 16; JInt 16; JInt 16]);
         ("dataType", JStr "uint8");
         ("byteOrder", JStr "little-endian");
         ("spacing", JList [JFloat 1.0; JFloat 1.0; JFloat 1.0]);
         ("description", JStr "Simple 16x16x16 gradient test volume")].
Proof.
  unfold create_simple_test_volume.
  rewrite (gradient_data_eq 16 16 16) by lia.
  eexists. split; [reflexivity|]. split; reflexivity.
Qed.

Lemma create_checkerboard_test_eq :
  ∃ out, create_checkerboard_test = Some out
    ∧ raw_bytes out = (λ k, checker_value k.1.1 k.1.2 k.2) <$> keys3 32 32 32
    ∧ metadata out =
        [("dimensions", JList [JInt 32; JInt 32; JInt 32]);
         ("dataType", JStr "uint8");
         ("byteOrder", JStr "little-endian");
         ("spacing", JList [JFloat 1.0; JFloat 1.0; JFloat 1.0]);
         ("description", JStr "32x32x32 checkerboard pattern")].
Proof.
  unfold create_checkerboard_test.
  rewrite (checker_data_eq 32 32 32).
  eexists. split; [reflexivity|]. split; reflexivity.
Qed.

End SimpleTestFacts.

(** ** Reading and writing array elements *)

Section LoopInvariants.
Context {A S : Type} (I : S → Prop).
Implicit Types (body : A → S → option S) (ks : list A).

Lemma for_each_preserves body ks s s' :
  (∀ k s1 s2, k ∈ ks → I s1 → body k s1 = Some s2 → I s2) →
  I s → for_each ks body s = Some s' → I s'.
Proof.
  revert s. induction ks as [|k ks IH]; intros s Hb Hs Hrun; simpl in Hrun.
  - by injection Hrun as <-.
  - destruct (body k s) as [s1|] eqn:Hk; simpl in Hrun; [|done].
    apply (IH s1); [|by eapply Hb; [left|..]|done].
    intros k' s2 s3 Hk'. apply Hb. by right.
Qed.

Lemma for_each_ext_inv body1 body2 ks s :
  (∀ k s1, k ∈ ks → I s1 → body1 k s1 = body2 k s1) →
  (∀ k s1 s2, k ∈ ks → I s1 → body2 k s1 = Some s2 → I s2) →
  I s → for_each ks body1 s = for_each ks body2 s.
Proof.
  revert s. induction ks as [|k ks IH]; intros s Heq Hpres Hs; simpl; [done|].
  rewrite Heq by (done || by left).
  destruct (body2 k s) as [s1|] eqn:Hk; simpl; [|done].
  apply IH.
  - intros k' s2 Hk'. apply Heq. by right.
  - intros k' s2 s3 Hk'. apply Hpres. by right.
  - by eapply Hpres; [left|..].
Qed.
End LoopInvariants.

Module NumpyFacts.

Definition in_bounds (shape idx : Z * Z * Z) : Prop :=
  0 ≤ idx.1.1 < shape.1.1 ∧ 0 ≤ idx.1.2 < shape.1.2 ∧ 0 ≤ idx.2 < shape.2.

(** Position of an in-bounds index in the C-order buffer. *)
Definition c_offset (shape idx : Z * Z * Z) : nat :=
  Z.to_nat ((idx.1.1 * shape.1.2 + idx.1.2) * shape.2 + idx.2).

Definition well_formed (a : ndarray) : Prop :=
  Z.of_nat (length (nd_buffer a))
  = (nd_shape a).1.1 * (nd_shape a).1.2 * (nd_shape a).2.

Lemma axis_index_in size i : 0 ≤ i < size → axis_index size i = Some i.
Proof.
  intros Hi. unfold axis_index.
  destruct (Z.leb_spec 0 i), (Z.ltb_spec i size); simpl; (done || lia).
Qed.

Lemma offset_in_bounds a idx :
  in_bounds (nd_shape a) idx → offset a idx = Some (c_offset (nd_shape a) idx).
Proof.
  unfold in_bounds, offset, c_offset.
  destruct (nd_shape a) as [[s0 s1] s2], idx as [[i j] k]; simpl.
  intros (Hi & Hj & Hk). by rewrite !axis_index_in.
Qed.

Lemma flat_bounds s0 s1 s2 i j k :
  0 ≤ i < s0 → 0 ≤ j < s1 → 0 ≤ k < s2 →
  0 ≤ i * s1 + j ∧ 0 ≤ (i * s1 + j) * s2 + k < s0 * s1 * s2.
Proof.
  intros Hi Hj Hk.
  assert (0 ≤ i * s1) by (apply Z.mul_nonneg_nonneg; lia).
  assert (0 ≤ (i * s1 + j) * s2) by (apply Z.mul_nonneg_nonneg; lia).
  assert (i * s1 + j + 1 ≤ s0 * s1) by nia.
  split; [lia|]. split; [lia|]. nia.
Qed.

Lemma c_offset_lt shape idx :
  in_bounds shape idx →
  Z.of_nat (c_offset shape idx) < shape.1.1 * shape.1.2 * shape.2.
Proof.
  unfold in_bounds, c_offset.
  destruct shape as [[s0 s1] s2], idx as [[i j] k]; simpl.
  intros (Hi & Hj & Hk).
  destruct (flat_bounds s0 s1 s2 i j k) as [_ ?]; [done..|].
  rewrite Z2Nat.id; lia.
Qed.

Lemma mixed_radix_inj n a b a' b' :
  0 ≤ b < n → 0 ≤ b' < n → a * n + b = a' * n + b' → a = a' ∧ b = b'.
Proof.
  intros Hb Hb' Heq.
  assert (a = a') as -> by (destruct (Z.lt_trichotomy a a') as [?|[?|?]]; nia).
  split; [done|lia].
Qed.

Lemma c_offset_inj shape idx idx' :
  in_bounds shape idx → in_bounds shape idx' →
  c_offset shape idx = c_offset shape idx' → idx = idx'.
Proof.
  unfold in_bounds, c_offset.
  destruct shape as [[s0 s1] s2], idx as [[i j] k], idx' as [[i' j'] k'].
  simpl. intros (Hi & Hj & Hk) (Hi' & Hj' & Hk') Heq.
  destruct (flat_bounds s0 s1 s2 i j k) as [? ?]; [done..|].
  destruct (flat_bounds s0 s1 s2 i' j' k') as [? ?]; [done..|].
  apply Z2Nat.inj in Heq; [|lia..].
  apply mixed_radix_inj in Heq as [Hij ->]; [|lia..].
  apply mixed_radix_inj in Hij as [-> ->]; [done|lia..].
Qed.

Lemma getitem_in_bounds a idx :
  in_bounds (nd_shape a) idx →
  getitem a idx = nd_buffer a !! c_offset (nd_shape a) idx.
Proof. intros Hin. unfold getitem. by rewrite offset_in_bounds. Qed.

Lemma setitem_in_bounds a idx v :
  well_formed a → in_bounds (nd_shape a) idx →
  0 ≤ v ≤ dtype_max (nd_dtype a) →
  ∃ a', setitem a idx v = Some a'
    ∧ nd_dtype a' = nd_dtype a ∧ nd_shape a' = nd_shape a ∧ well_formed a'
    ∧ getitem a' idx = Some v
    ∧ ∀ t, in_bounds (nd_shape a) t → t ≠ idx → getitem a' t = getitem a t.
Proof.
  intros Hwf Hin Hv. unfold setitem. rewrite offset_in_bounds by done. simpl.
  destruct (Z.leb_spec 0 v), (Z.leb_spec v (dtype_max (nd_dtype a)));
    simpl; try lia.
  eexists. split; [done|]. split; [done|]. split; [done|].
  pose proof (c_offset_lt _ _ Hin) as Hlt. unfold well_formed in Hwf.
  split; [|split].
  - unfold well_formed. simpl. by rewrite length_insert.
  - rewrite getitem_in_bounds by done. simpl.
    apply list_lookup_insert_eq. lia.
  - intros t Ht Hne. rewrite !getitem_in_bounds by done. simpl.
    apply list_lookup_insert_ne. intros Heq.
    apply Hne. symmetry. by eapply c_offset_inj.
Qed.

Lemma setitem_layout a idx v a' :
  setitem a idx v = Some a' →
  nd_dtype a' = nd_dtype a ∧ nd_shape a' = nd_shape a.
Proof.
  unfold setitem. destruct (offset a idx); simpl; [|done].
  destruct (_ && _); [|done]. by intros [= <-].
Qed.

(** A loop whose iterations each store at most one element, at
    pairwise distinct in-bounds indices: afterwards every visited index
    holds what its iteration stored, or what was there before when the
    iteration stored nothing. *)
Lemma for_each_writes {K} (body : K → ndarray → option ndarray)
    (idx : K → Z * Z * Z) (w : K → option Z) (keys : list K) (a0 : ndarray) :
  well_formed a0 →
  (∀ k a, k ∈ keys →
     body k a = match w k with Some v => setitem a (idx k) v | None => Some a end) →
  (∀ k, k ∈ keys → in_bounds (nd_shape a0) (idx k)) →
  (∀ k v, k ∈ keys → w k = Some v → 0 ≤ v ≤ dtype_max (nd_dtype a0)) →
  NoDup (idx <$> keys) →
  ∃ a, for_each keys body a0 = Some a
    ∧ nd_dtype a = nd_dtype a0 ∧ nd_shape a = nd_shape a0 ∧ well_formed a
    ∧ (∀ k, k ∈ keys →
         getitem a (idx k)
         = match w k with Some v => Some v | None => getitem a0 (idx k) end)
    ∧ (∀ t, in_bounds (nd_shape a0) t → t ∉ idx <$> keys →
         getitem a t = getitem a0 t).
Proof.
  revert a0. induction keys as [|k0 keys IH]; intros a0 Hwf Hbody Hin Hval Hnd.
  { exists a0. repeat split; try done. intros k Hk. by apply elem_of_nil in Hk. }
  rewrite fmap_cons in Hnd. apply NoDup_cons in Hnd as [Hfresh Hnd].
  assert (∃ a1, body k0 a0 = Some a1
    ∧ nd_dtype a1 = nd_dtype a0 ∧ nd_shape a1 = nd_shape a0 ∧ well_formed a1
    ∧ getitem a1 (idx k0)
      = match w k0 with Some v => Some v | None => getitem a0 (idx k0) end
    ∧ ∀ t, in_bounds (nd_shape a0) t → t ≠ idx k0 →
        getitem a1 t = getitem a0 t)
    as (a1 & Hrun & Hdt & Hsh & Hwf1 & Hhit & Hmiss).
  { rewrite Hbody by left. destruct (w k0) as [v|] eqn:Hw.
    - apply setitem_in_bounds; [done|by apply Hin; left|].
      by apply (Hval k0); [left|].
    - by exists a0. }
  destruct (IH a1) as (a & Hrun' & Hdt' & Hsh' & Hwf' & Hhit' & Hmiss').
  - done.
  - intros k a' Hk. apply Hbody. by right.
  - intros k Hk. rewrite Hsh. apply Hin. by right.
  - intros k v Hk. rewrite Hdt. apply Hval. by right.
  - done.
  - exists a. simpl. rewrite Hrun. simpl.
    split; [done|]. split; [congruence|]. split; [congruence|].
    split; [done|]. split.
    + intros k Hk. apply elem_of_cons in Hk as [-> | Hk].
      * rewrite Hmiss', Hhit; [done| |done].
        rewrite Hsh. apply Hin. by left.
      * rewrite Hhit' by done. destruct (w k); [done|].
        apply Hmiss; [apply Hin; by right|].
        intros Heq. apply Hfresh. rewrite <- Heq.
        by apply list_elem_of_fmap_2.
    + intros t Ht Hnot. apply not_elem_of_cons in Hnot as [Hne Hnot].
      rewrite Hmiss'; [by apply Hmiss|by rewrite Hsh|done].
Qed.

Lemma getitem_zeros shape dt idx :
  in_bounds shape idx → getitem (zeros shape dt) idx = Some 0.
Proof.
  intros Hin. pose proof (c_offset_lt _ _ Hin) as Hlt.
  destruct shape as [[s0 s1] s2].
  rewrite getitem_in_bounds by done. simpl.
  apply lookup_replicate_2. simpl in Hlt. lia.
Qed.

Lemma well_formed_zeros s0 s1 s2 dt :
  0 ≤ s0 → 0 ≤ s1 → 0 ≤ s2 → well_formed (zeros (s0, s1, s2) dt).
Proof.
  intros. unfold well_formed. simpl. rewrite length_replicate. nia.
Qed.

(** The file holds the buffer's elements in order, [itemsize] bytes
    each. *)
Lemma length_tofile a :
  Z.of_nat (length (tofile a))
  = Z.of_nat (length (nd_buffer a)) * itemsize (nd_dtype a).
Proof.
  unfold tofile.
  rewrite (length_bind_uniform _ _ (Z.to_nat (itemsize (nd_dtype a)))).
  - destruct (nd_dtype a); simpl; lia.
  - intros v _. by destruct (nd_dtype a).
Qed.

Lemma tofile_uint8 a : nd_dtype a = uint8 → tofile a = nd_buffer a.
Proof.
  intros Hdt. unfold tofile. rewrite Hdt. simpl.
  induction (nd_buffer a) as [|v l IH]; [done|].
  rewrite bind_cons, IH. done.
Qed.

End NumpyFacts.

(** ** What generate_test_data.py builds in memory *)

Module TestDataFacts.
Import NumpyFacts TestData.

Lemma for_each_setitem_layout {K} (idx : K → Z * Z * Z) (val : K → Z) ks a a' :
  for_each ks (λ k a, setitem a (idx k) (val k)) a = Some a' →
  nd_shape a' = nd_shape a.
Proof.
  apply (for_each_preserves (λ b, nd_shape b = nd_shape a)); [|done].
  intros k a1 a2 _ Ha1 Hset. apply setitem_layout in Hset as [_ ->]. done.
Qed.

(** [a[:, :, k] = v] on an array of known shape is a two-level loop of
    single stores. *)
Lemma setitem_last_axis_unfold a s0 s1 s2 k v :
  nd_shape a = (s0, s1, s2) →
  setitem_last_axis a k v
  = for_each (range s0) (λ i a,
      for_each (range s1) (λ j a, setitem a (i, j, k) v) a) a.
Proof. intros Hsh. unfold setitem_last_axis. by rewrite Hsh. Qed.

Lemma setitem_last_axis_layout a k v a' :
  setitem_last_axis a k v = Some a' → nd_shape a' = nd_shape a.
Proof.
  destruct (nd_shape a) as [[s0 s1] s2] eqn:Hsh.
  rewrite (setitem_last_axis_unfold a s0 s1 s2) by done. rewrite <- Hsh.
  apply (for_each_preserves (λ b, nd_shape b = nd_shape a)); [|done].
  intros i a1 a2 _ Ha1 Hrow.
  apply (for_each_setitem_layout (λ j, (i, j, k)) (λ _, v)) in Hrow.
  congruence.
Qed.

Lemma in_keys3_bounds n k :
  k ∈ keys3 n n n → in_bounds (n, n, n) k ∧ in_bounds (n, n, n) (k.1.2, k.1.1, k.2).
Proof.
  destruct k as [[x y] z]. rewrite elem_of_keys3. unfold in_bounds. simpl. lia.
Qed.

Lemma in_bounds_keys3 n x y z :
  0 ≤ x < n → 0 ≤ y < n → 0 ≤ z < n → (x, y, z) ∈ keys3 n n n.
Proof. intros. by apply elem_of_keys3. Qed.

(** [create_test_volume_uint8]: every element [volume[x, y, z]] ends up
    as [z * 4]. *)
Lemma gradient_volume_spec :
  ∃ vol, gradient_volume = Some vol
    ∧ nd_dtype vol = uint8 ∧ nd_shape vol = (64, 64, 64) ∧ well_formed vol
    ∧ ∀ x y z, 0 ≤ x < 64 → 0 ≤ y < 64 → 0 ≤ z < 64 →
        getitem vol (x, y, z) = Some (z * 4).
Proof.
  unfold gradient_volume.
  rewrite (for_each_ext_inv (λ a, nd_shape a = (64, 64, 64)) _
    (λ z a, for_each (range 64) (λ i a,
       for_each (range 64) (λ j a, setitem a (i, j, z) (z * 4)) a) a)).
  2: { intros z a _ Ha. by apply (setitem_last_axis_unfold a 64 64 64). }
  2: { intros z a1 a2 _ Ha1 Hrun.
       rewrite <- (setitem_last_axis_unfold a1 64 64 64) in Hrun by done.
       apply setitem_last_axis_layout in Hrun. congruence. }
  2: done.
  rewrite (for_each_nest3 (λ j i z a, setitem a (i, j, z) (z * 4))).
  destruct (for_each_writes
    (λ k a, setitem a (k.1.2, k.1.1, k.2) (k.2 * 4))
    (λ k, (k.1.2, k.1.1, k.2)) (λ k, Some (k.2 * 4))
    (keys3 64 64 64) (zeros (64, 64, 64) uint8))
    as (vol & Hrun & Hdt & Hsh & Hwf & Hhit & _).
  - by apply well_formed_zeros.
  - done.
  - intros k Hk. by apply in_keys3_bounds.
  - intros [[j i] z] v Hk [= <-]. apply elem_of_keys3 in Hk.
    simpl. unfold dtype_max. simpl. lia.
  - apply NoDup_fmap_2_strong; [|apply NoDup_keys3].
    intros [[j i] z] [[j' i'] z'] _ _ [= -> -> ->]. done.
  - exists vol. split; [done|]. split; [done|]. split; [done|]. split; [done|].
    intros x y z Hx Hy Hz.
    apply (Hhit (y, x, z)). by apply in_bounds_keys3.
Qed.

(** The cell rule of the 64-cube checkerboard, lines 85-89. *)
Definition checker_cell (x y z : Z) : option Z :=
  if ((x / 8) mod 2 + (y / 8) mod 2 + (z / 8) mod 2) mod 2 =? 0
  then Some 255 else None.

Lemma checker_volume_spec :
  ∃ vol, checker_volume = Some vol
    ∧ nd_dtype vol = uint8 ∧ nd_shape vol = (64, 64, 64) ∧ well_formed vol
    ∧ ∀ x y z, 0 ≤ x < 64 → 0 ≤ y < 64 → 0 ≤ z < 64 →
        getitem vol (x, y, z) = Some (default 0 (checker_cell x y z)).
Proof.
  unfold checker_volume.
  rewrite (for_each_nest3 (λ x y z a,
    if ((x / 8) mod 2 + (y / 8) mod 2 + (z / 8) mod 2) mod 2 =? 0
    then setitem a (x, y, z) 255 else Some a)).
  destruct (for_each_writes
    (λ k a, if ((k.1.1 / 8) mod 2 + (k.1.2 / 8) mod 2 + (k.2 / 8) mod 2) mod 2
               =? 0
            then setitem a (k.1.1, k.1.2, k.2) 255 else Some a)
    (λ k, k) (λ k, checker_cell k.1.1 k.1.2 k.2)
    (keys3 64 64 64) (zeros (64, 64, 64) uint8))
    as (vol & Hrun & Hdt & Hsh & Hwf & Hhit & _).
  - by apply well_formed_zeros.
  - intros [[x y] z] a _. unfold checker_cell. simpl. by destruct (_ =? 0).
  - intros k Hk. by apply in_keys3_bounds.
  - intros [[x y] z] v _. unfold checker_cell. simpl.
    destruct (_ =? 0); [|done]. intros [= <-]. unfold dtype_max. simpl. lia.
  - rewrite list_fmap_id. apply NoDup_keys3.
  - exists vol. split; [done|]. split; [done|]. split; [done|]. split; [done|].
    intros x y z Hx Hy Hz.
    rewrite (Hhit (x, y, z)) by by apply in_bounds_keys3. cbn [fst snd].
    rewrite getitem_zeros by (unfold in_bounds; cbn [fst snd]; lia).
    by destruct (checker_cell x y z).
Qed.

(** The squared distance to [center = 16], an exact integer. *)
Definition squared_distance (x y z : Z) : Z :=
  (x - 16) ^ 2 + (y - 16) ^ 2 + (z - 16) ^ 2.

(** What one iteration of the sphere loop stores, if anything
    (lines 52-54 with [center = 16], [radius = 12]). *)
Definition sphere_cell (x y z : Z) : option Z :=
  let dist := distance 16 x y z in
  if PrimFloat.ltb dist (float_of_int 12) then falloff 12 dist else None.

(** [v] is the integer part of the real number
    [4095 * (1 - sqrt d2 / 12)], stated without square roots:
    [4095 * sqrt d2 <= 12 * (4095 - v)] and
    [12 * (4094 - v) < 4095 * sqrt d2]. *)
Definition floor_of_falloff (d2 v : Z) : Prop :=
  0 ≤ v ≤ 4095
  ∧ 4095 ^ 2 * d2 ≤ (12 * (4095 - v)) ^ 2
  ∧ (v = 4095 ∨ (12 * (4094 - v)) ^ 2 < 4095 ^ 2 * d2).

Definition floor_of_falloff_b (d2 v : Z) : bool :=
  (0 <=? v) && (v <=? 4095)
  && (4095 ^ 2 * d2 <=? (12 * (4095 - v)) ^ 2)
  && ((v =? 4095) || ((12 * (4094 - v)) ^ 2 <? 4095 ^ 2 * d2)).

Lemma floor_of_falloff_b_spec d2 v :
  floor_of_falloff_b d2 v = true → floor_of_falloff d2 v.
Proof.
  unfold floor_of_falloff_b, floor_of_falloff.
  rewrite !andb_true_iff, orb_true_iff.
  rewrite !Z.leb_le, Z.eqb_eq, Z.ltb_lt. tauto.
Qed.

(** The floating-point computation of one cell, as a function of the
    squared distance, compared with exact integer arithmetic. *)
Definition sphere_check (d2 : Z) : bool :=
  let dist := PrimFloat.sqrt (float_of_int d2) in
  if PrimFloat.ltb dist (float_of_int 12) then
    (d2 <? 144)
    && match falloff 12 dist with
       | Some v => floor_of_falloff_b d2 v
       | None => false
       end
  else 144 <=? d2.

Lemma sphere_table d2 : 0 ≤ d2 ≤ 768 → sphere_check d2 = true.
Proof.
  intros Hd.
  assert (forallb sphere_check (range 769) = true) as Hall
    by (vm_compute; reflexivity).
  rewrite forallb_forall in Hall. apply Hall.
  apply list_elem_of_In, elem_of_range. lia.
Qed.

Lemma squared_distance_bounds x y z :
  0 ≤ x < 32 → 0 ≤ y < 32 → 0 ≤ z < 32 → 0 ≤ squared_distance x y z ≤ 768.
Proof. intros. unfold squared_distance. nia. Qed.

Lemma sphere_cell_inside x y z :
  0 ≤ x < 32 → 0 ≤ y < 32 → 0 ≤ z < 32 →
  squared_distance x y z < 144 →
  PrimFloat.ltb (distance 16 x y z) (float_of_int 12) = true
  ∧ ∃ v, falloff 12 (distance 16 x y z) = Some v
      ∧ sphere_cell x y z = Some v
      ∧ floor_of_falloff (squared_distance x y z) v.
Proof.
  intros Hx Hy Hz Hd.
  pose proof (sphere_table _ (squared_distance_bounds x y z Hx Hy Hz)) as Ht.
  unfold sphere_cell, distance. fold (squared_distance x y z).
  unfold sphere_check in Ht. cbv zeta in *.
  destruct (PrimFloat.ltb _ _); [|lia]. split; [done|].
  apply andb_true_iff in Ht as [_ Ht].
  destruct (falloff 12 _) as [v|]; [|done].
  exists v. by split; [|split; [|apply floor_of_falloff_b_spec]].
Qed.

Lemma sphere_cell_outside x y z :
  0 ≤ x < 32 → 0 ≤ y < 32 → 0 ≤ z < 32 →
  144 ≤ squared_distance x y z →
  PrimFloat.ltb (distance 16 x y z) (float_of_int 12) = false
  ∧ sphere_cell x y z = None.
Proof.
  intros Hx Hy Hz Hd.
  pose proof (sphere_table _ (squared_distance_bounds x y z Hx Hy Hz)) as Ht.
  unfold sphere_cell, distance. fold (squared_distance x y z).
  unfold sphere_check in Ht. cbv zeta in *.
  destruct (PrimFloat.ltb _ _); [|done].
  apply andb_true_iff in Ht as [Ht _]. lia.
Qed.

(** [create_test_volume_uint16]: every element [volume[x, y, z]] ends
    up as the falloff value inside the sphere and stays 0 outside. *)
Lemma sphere_volume_spec :
  ∃ vol, sphere_volume = Some vol
    ∧ nd_dtype vol = uint16 ∧ nd_shape vol = (32, 32, 32) ∧ well_formed vol
    ∧ ∀ x y z, 0 ≤ x < 32 → 0 ≤ y < 32 → 0 ≤ z < 32 →
        getitem vol (x, y, z) = Some (default 0 (sphere_cell x y z)).
Proof.
  unfold sphere_volume. cbv zeta.
  rewrite (for_each_nest3 (λ x y z a,
    if PrimFloat.ltb (distance 16 x y z) (float_of_int 12)
    then v ← falloff 12 (distance 16 x y z); setitem a (x, y, z) v
    else Some a)).
  destruct (for_each_writes
    (λ k a, if PrimFloat.ltb (distance 16 k.1.1 k.1.2 k.2) (float_of_int 12)
            then v ← falloff 12 (distance 16 k.1.1 k.1.2 k.2);
                 setitem a (k.1.1, k.1.2, k.2) v
            else Some a)
    (λ k, k) (λ k, sphere_cell k.1.1 k.1.2 k.2)
    (keys3 32 32 32) (zeros (32, 32, 32) uint16))
    as (vol & Hrun & Hdt & Hsh & Hwf & Hhit & _).
  - by apply well_formed_zeros.
  - intros [[x y] z] a Hk. apply elem_of_keys3 in Hk as (Hx & Hy & Hz).
    cbn [fst snd].
    destruct (Z.lt_ge_cases (squared_distance x y z) 144) as [Hd|Hd].
    + destruct (sphere_cell_inside x y z) as (-> & v & -> & -> & _); done.
    + destruct (sphere_cell_outside x y z) as (-> & ->); done.
  - intros k Hk. by apply in_keys3_bounds.
  - intros [[x y] z] v Hk. apply elem_of_keys3 in Hk as (Hx & Hy & Hz).
    cbn [fst snd]. intros Hcell.
    destruct (Z.lt_ge_cases (squared_distance x y z) 144) as [Hd|Hd].
    + destruct (sphere_cell_inside x y z) as (_ & v' & _ & Hc & Hv & _);
        [done..|].
      assert (v' = v) as -> by congruence.
      unfold dtype_max. simpl. lia.
    + destruct (sphere_cell_outside x y z) as (_ & Hc); [done..|]. congruence.
  - rewrite list_fmap_id. apply NoDup_keys3.
  - exists vol. split; [done|]. split; [done|]. split; [done|]. split; [done|].
    intros x y z Hx Hy Hz.
    rewrite (Hhit (x, y, z)) by by apply in_bounds_keys3. cbn [fst snd].
    rewrite getitem_zeros by (unfold in_bounds; cbn [fst snd]; lia).
    by destruct (sphere_cell x y z).
Qed.

(** On the squared distances that occur, the floating-point
    comparisons of the distance decide the exact ones. *)
Definition distance_check (d2 : Z) : bool :=
  let dist := PrimFloat.sqrt (float_of_int d2) in
  Bool.eqb (PrimFloat.leb (float_of_int 12) dist) (144 <=? d2)
  && Bool.eqb (PrimFloat.eqb dist (float_of_int 0)) (d2 =? 0).

Lemma distance_compare x y z :
  0 ≤ x < 32 → 0 ≤ y < 32 → 0 ≤ z < 32 →
  PrimFloat.leb (float_of_int 12) (distance 16 x y z)
  = (144 <=? squared_distance x y z)
  ∧ PrimFloat.eqb (distance 16 x y z) (float_of_int 0)
    = (squared_distance x y z =? 0).
Proof.
  intros Hx Hy Hz.
  assert (forallb distance_check (range 769) = true) as Hall
    by (vm_compute; reflexivity).
  rewrite forallb_forall in Hall.
  specialize (Hall (squared_distance x y z)).
  unfold distance_check in Hall. cbv zeta in Hall.
  unfold distance. fold (squared_distance x y z).
  rewrite andb_true_iff, !eqb_true_iff in Hall. apply Hall.
  apply list_elem_of_In, elem_of_range.
  pose proof (squared_distance_bounds x y z Hx Hy Hz). lia.
Qed.

End TestDataFacts.

(** ** The files written by generate_test_data.py *)

Module TestDataFiles.
Import NumpyFacts TestData TestDataFacts.

Lemma create_test_volume_uint8_eq vol :
  gradient_volume = Some vol →
  ∃ out, create_test_volume_uint8 = Some out
    ∧ raw_bytes out = tofile vol
    ∧ metadata out =
        [("dimensions", JList [JInt 64; JInt 64; JInt 64]);
         ("dataType", JStr "uint8");
         ("byteOrder", JStr "little-endian");
         ("spacing", JList [JFloat 1.0; JFloat 1.0; JFloat 1.0]);
         ("description", JStr "Test gradient volume (uint8)")].
Proof.
  intros Hvol. unfold create_test_volume_uint8. rewrite Hvol.
  eexists. split; [reflexivity|]. split; reflexivity.
Qed.

Lemma create_test_volume_uint16_eq vol :
  sphere_volume = Some vol →
  ∃ out, create_test_volume_uint16 = Some out
    ∧ raw_bytes out = tofile vol
    ∧ metadata out =
        [("dimensions", JList [JInt 32; JInt 32; JInt 32]);
         ("dataType", JStr "uint16");
         ("byteOrder", JStr "little-endian");
         ("spacing", JList [JFloat 1.0; JFloat 1.0; JFloat 1.0]);
         ("description", JStr "Test sphere volume (uint16)")].
Proof.
  intros Hvol. unfold create_test_volume_uint16. rewrite Hvol.
  eexists. split; [reflexivity|]. split; reflexivity.
Qed.

Lemma create_test_volume_checker_eq vol :
  checker_volume = Some vol →
  ∃ out, create_test_volume_checker = Some out
    ∧ raw_bytes out = tofile vol
    ∧ metadata out =
        [("dimensions", JList [JInt 64; JInt 64; JInt 64]);
         ("dataType", JStr "uint8");
         ("byteOrder", JStr "little-endian");
         ("spacing", JList [JFloat 1.0; JFloat 1.0; JFloat 1.0]);
         ("description", JStr "3D checkerboard pattern")].
Proof.
  intros Hvol. unfold create_test_volume_checker. rewrite Hvol.
  eexists. split; [reflexivity|]. split; reflexivity.
Qed.

(** In a cube written by [tofile], the element read at flat position
    [((z * n) + y) * n + x] is the array element [a[z, y, x]]: the first
    array index is the slowest in the file. *)
Lemma buffer_at_flat_position a n x y z :
  nd_shape a = (n, n, n) →
  0 ≤ x < n → 0 ≤ y < n → 0 ≤ z < n →
  nd_buffer a !! flat_position n n x y z = getitem a (z, y, x).
Proof.
  intros Hsh Hx Hy Hz.
  rewrite getitem_in_bounds by (rewrite Hsh; unfold in_bounds; simpl; lia).
  by rewrite Hsh.
Qed.

End TestDataFiles.

(** ** Properties of the generated volumes *)

Import SimpleTest SimpleTestFacts.
Import NumpyFacts TestData TestDataFacts TestDataFiles.

(** The generators are closed terms; once a run is known to return a
    value the equation is used and dropped, so that no later step
    evaluates a whole volume. *)
Ltac ran H := split; [exact H|]; clear H.

(** *** Traversal order *)

(** Both volumes of generate_simple_test.py are written with the depth
    index slowest and the width index fastest. *)
Lemma simple_gradient_order x y z :
  0 ≤ x < 16 → 0 ≤ y < 16 → 0 ≤ z < 16 →
  ∃ out, create_simple_test_volume = Some out
    ∧ voxel_at (raw_bytes out) 16 16 x y z = Some (z * 255 / 15).
Proof.
  intros Hx Hy Hz.
  destruct create_simple_test_volume_eq as (out & Hrun & Hraw & _).
  exists out. ran Hrun. rewrite Hraw.
  by rewrite (voxel_at_fmap_keys3 (λ k, k.2 * 255 / 15)).
Qed.

Lemma simple_checker_order x y z :
  0 ≤ x < 32 → 0 ≤ y < 32 → 0 ≤ z < 32 →
  ∃ out, create_checkerboard_test = Some out
    ∧ voxel_at (raw_bytes out) 32 32 x y z = Some (checker_value x y z).
Proof.
  intros Hx Hy Hz.
  destruct create_checkerboard_test_eq as (out & Hrun & Hraw & _).
  exists out. ran Hrun. rewrite Hraw.
  by rewrite (voxel_at_fmap_keys3 (λ k, checker_value k.1.1 k.1.2 k.2)).
Qed.

(** The checkerboard and the sphere of generate_test_data.py are
    symmetric under exchanging [x] and [z], so reading their files with
    [x] fastest still finds [volume[x, y, z]]. *)
Lemma checker_cell_swap x y z : checker_cell z y x = checker_cell x y z.
Proof.
  unfold checker_cell.
  replace ((z / 8) mod 2 + (y / 8) mod 2 + (x / 8) mod 2)
    with ((x / 8) mod 2 + (y / 8) mod 2 + (z / 8) mod 2) by ring.
  reflexivity.
Qed.

Lemma sphere_cell_swap x y z : sphere_cell z y x = sphere_cell x y z.
Proof.
  unfold sphere_cell, distance.
  replace ((z - 16) ^ 2 + (y - 16) ^ 2 + (x - 16) ^ 2)
    with ((x - 16) ^ 2 + (y - 16) ^ 2 + (z - 16) ^ 2) by ring.
  reflexivity.
Qed.

Lemma numpy_checker_order x y z :
  0 ≤ x < 64 → 0 ≤ y < 64 → 0 ≤ z < 64 →
  ∃ vol out, checker_volume = Some vol
    ∧ create_test_volume_checker = Some out
    ∧ voxel_at (raw_bytes out) 64 64 x y z = getitem vol (x, y, z).
Proof.
  intros Hx Hy Hz.
  destruct checker_volume_spec as (vol & Hvol & Hdt & Hsh & _ & Hget).
  destruct (create_test_volume_checker_eq vol Hvol) as (out & Hout & Hraw & _).
  exists vol, out. ran Hvol. ran Hout.
  unfold voxel_at. rewrite Hraw, tofile_uint8 by exact Hdt.
  rewrite (buffer_at_flat_position vol 64) by (exact Hsh || lia).
  rewrite !Hget by lia. by rewrite checker_cell_swap.
Qed.

Lemma numpy_sphere_order x y z :
  0 ≤ x < 32 → 0 ≤ y < 32 → 0 ≤ z < 32 →
  ∃ vol, sphere_volume = Some vol
    ∧ nd_buffer vol !! flat_position 32 32 x y z = getitem vol (x, y, z).
Proof.
  intros Hx Hy Hz.
  destruct sphere_volume_spec as (vol & Hvol & Hdt & Hsh & _ & Hget).
  exists vol. ran Hvol.
  rewrite (buffer_at_flat_position vol 32) by (exact Hsh || lia).
  rewrite !Hget by lia. by rewrite sphere_cell_swap.
Qed.

(** C1 (fails on [create_test_volume_uint8]): the 64-cube gradient is
    stored as [volume[x, y, z] = z * 4] and written in C order, so the
    file position [((z*64)+y)*64 + x] holds [volume[z, y, x] = x * 4]
    and not the voxel value at index [(x, y, z)].  At index [(0, 0, 1)]
    the voxel is 4 while flat position 4096 of the file holds 0. *)
Theorem C1_uint8_gradient_written_x_slowest :
  ∃ vol out, gradient_volume = Some vol
    ∧ create_test_volume_uint8 = Some out
    ∧ getitem vol (0, 0, 1) = Some 4
    ∧ flat_position 64 64 0 0 1 = 4096%nat
    ∧ voxel_at (raw_bytes out) 64 64 0 0 1 = Some 0.
Proof.
  destruct gradient_volume_spec as (vol & Hvol & Hdt & Hsh & _ & Hget).
  destruct (create_test_volume_uint8_eq vol Hvol) as (out & Hout & Hraw & _).
  exists vol, out. ran Hvol. ran Hout.
  split; [rewrite Hget by lia; reflexivity|].
  split; [vm_compute; reflexivity|].
  unfold voxel_at. rewrite Hraw, tofile_uint8 by exact Hdt.
  rewrite (buffer_at_flat_position vol 64) by (exact Hsh || lia).
  rewrite Hget by lia. reflexivity.
Qed.

(** *** Gradient volumes *)

(** A gradient along [z] that starts at 0, never decreases and ends at
    [top]. *)
Definition gradient_along_z (voxel : Z → Z → Z → option Z)
    (width height depth top : Z) : Prop :=
  ∀ x y, 0 ≤ x < width → 0 ≤ y < height →
    voxel x y 0 = Some 0
    ∧ voxel x y (depth - 1) = Some top
    ∧ ∀ z z', 0 ≤ z → z ≤ z' → z' < depth →
        ∃ v v', voxel x y z = Some v ∧ voxel x y z' = Some v' ∧ v ≤ v'.

Lemma simple_gradient_along_z :
  ∃ out, create_simple_test_volume = Some out
    ∧ gradient_along_z (voxel_at (raw_bytes out) 16 16) 16 16 16 255.
Proof.
  destruct create_simple_test_volume_eq as (out & Hrun & Hraw & _).
  exists out. ran Hrun. rewrite Hraw. intros x y Hx Hy.
  rewrite !(voxel_at_fmap_keys3 (λ k, k.2 * 255 / 15)) by lia.
  split; [reflexivity|]. split; [reflexivity|]. intros z z' H0 Hle Hlt.
  rewrite !(voxel_at_fmap_keys3 (λ k, k.2 * 255 / 15)) by lia.
  eexists _, _. split; [reflexivity|]. split; [reflexivity|]. cbn [snd].
  apply Z.div_le_mono; lia.
Qed.

Lemma numpy_gradient_along_z :
  ∃ vol, gradient_volume = Some vol
    ∧ gradient_along_z (λ x y z, getitem vol (x, y, z)) 64 64 64 252.
Proof.
  destruct gradient_volume_spec as (vol & Hvol & _ & _ & _ & Hget).
  exists vol. ran Hvol. intros x y Hx Hy.
  rewrite !Hget by lia. split; [reflexivity|]. split; [reflexivity|].
  intros z z' H0 Hle Hlt. rewrite !Hget by lia.
  eexists _, _. split; [reflexivity|]. split; [reflexivity|]. lia.
Qed.

(** C2 (counterexample): in the 64-cube gradient of
    generate_test_data.py the value at the last z index is not 255. *)
Lemma C2_uint8_gradient_last_slice_not_255 :
  ¬ (∃ vol, gradient_volume = Some vol
       ∧ gradient_along_z (λ x y z, getitem vol (x, y, z)) 64 64 64 255).
Proof.
  intros (vol & Hvol & Hgrad).
  destruct numpy_gradient_along_z as (vol' & Hvol' & Hgrad').
  assert (vol' = vol) as ->.
  { rewrite Hvol in Hvol'. injection Hvol' as ->. reflexivity. }
  clear Hvol Hvol'.
  destruct (Hgrad 0 0) as (_ & H255 & _); [lia..|].
  destruct (Hgrad' 0 0) as (_ & H252 & _); [lia..|].
  rewrite H255 in H252. discriminate H252.
Qed.

(** C2 (amended): both gradients start at 0 at the first z index and
    never decrease along z; the last z index holds 255 in the 16-cube
    of generate_simple_test.py and 252 ([63 * 4]) in the 64-cube of
    generate_test_data.py. *)
Theorem C2_gradients_monotone_from_zero :
  (∃ out, create_simple_test_volume = Some out
     ∧ gradient_along_z (voxel_at (raw_bytes out) 16 16) 16 16 16 255)
  ∧ (∃ vol, gradient_volume = Some vol
       ∧ gradient_along_z (λ x y z, getitem vol (x, y, z)) 64 64 64 252).
Proof. split; [apply simple_gradient_along_z|apply numpy_gradient_along_z]. Qed.

Lemma C2_gradients_monotone_from_zero_witness :
  (∃ out, create_simple_test_volume = Some out
     ∧ voxel_at (raw_bytes out) 16 16 3 5 15 = Some 255)
  ∧ (∃ vol, gradient_volume = Some vol
       ∧ getitem vol (3, 5, 63) = Some 252).
Proof.
  destruct C2_gradients_monotone_from_zero
    as [(out & Hout & Hg) (vol & Hvol & Hg')].
  split.
  - exists out. ran Hout. clear Hvol.
    destruct (Hg 3 5) as (_ & Hlast & _); [lia..|]. exact Hlast.
  - exists vol. ran Hvol. clear Hout.
    destruct (Hg' 3 5) as (_ & Hlast & _); [lia..|]. exact Hlast.
Defined.

(** C7: the 16x16x16 gradient file has exactly 4096 bytes; every voxel
    of the slice [z = 0] is 0 and every voxel of the slice [z = 15] is
    255. *)
Theorem C7_simple_gradient_scenario :
  ∃ out, create_simple_test_volume = Some out
    ∧ length (raw_bytes out) = 4096%nat
    ∧ ∀ x y, 0 ≤ x < 16 → 0 ≤ y < 16 →
        voxel_at (raw_bytes out) 16 16 x y 0 = Some 0
        ∧ voxel_at (raw_bytes out) 16 16 x y 15 = Some 255.
Proof.
  destruct create_simple_test_volume_eq as (out & Hrun & Hraw & _).
  exists out. ran Hrun. rewrite Hraw. split.
  - rewrite length_fmap, length_keys3. reflexivity.
  - intros x y Hx Hy.
    rewrite !(voxel_at_fmap_keys3 (λ k, k.2 * 255 / 15)) by lia.
    split; reflexivity.
Qed.

Lemma C7_simple_gradient_scenario_witness :
  ∃ out, create_simple_test_volume = Some out
    ∧ voxel_at (raw_bytes out) 16 16 7 9 0 = Some 0
    ∧ voxel_at (raw_bytes out) 16 16 7 9 15 = Some 255.
Proof.
  destruct C7_simple_gradient_scenario as (out & Hout & _ & Hslices).
  exists out. ran Hout. apply (Hslices 7 9); lia.
Defined.

(** C10: in both gradient volumes each constant-z slice is uniform:
    the voxel value does not depend on [x] or [y]. *)
Theorem C10_gradient_slices_uniform :
  (∃ out, create_simple_test_volume = Some out
     ∧ ∀ x y x' y' z,
         0 ≤ x < 16 → 0 ≤ y < 16 → 0 ≤ x' < 16 → 0 ≤ y' < 16 → 0 ≤ z < 16 →
         ∃ v, voxel_at (raw_bytes out) 16 16 x y z = Some v
            ∧ voxel_at (raw_bytes out) 16 16 x' y' z = Some v)
  ∧ (∃ vol, gradient_volume = Some vol
       ∧ ∀ x y x' y' z,
           0 ≤ x < 64 → 0 ≤ y < 64 → 0 ≤ x' < 64 → 0 ≤ y' < 64 → 0 ≤ z < 64 →
           ∃ v, getitem vol (x, y, z) = Some v
              ∧ getitem vol (x', y', z) = Some v).
Proof.
  split.
  - destruct create_simple_test_volume_eq as (out & Hrun & Hraw & _).
    exists out. ran Hrun. rewrite Hraw.
    intros x y x' y' z Hx Hy Hx' Hy' Hz.
    rewrite !(voxel_at_fmap_keys3 (λ k, k.2 * 255 / 15)) by lia.
    eexists. split; reflexivity.
  - destruct gradient_volume_spec as (vol & Hvol & _ & _ & _ & Hget).
    exists vol. ran Hvol.
    intros x y x' y' z Hx Hy Hx' Hy' Hz.
    rewrite !Hget by lia. eexists. split; reflexivity.
Qed.

Lemma C10_gradient_slices_uniform_witness :
  (∃ out, create_simple_test_volume = Some out
     ∧ voxel_at (raw_bytes out) 16 16 0 0 4 = voxel_at (raw_bytes out) 16 16 15 2 4)
  ∧ (∃ vol, gradient_volume = Some vol
       ∧ getitem vol (0, 0, 40) = getitem vol (63, 2, 40)).
Proof.
  destruct C10_gradient_slices_uniform
    as [(out & Hout & Hs) (vol & Hvol & Hs')].
  split.
  - exists out. ran Hout. clear Hvol.
    destruct (Hs 0 0 15 2 4) as (v & -> & ->); [lia..|]. reflexivity.
  - exists vol. ran Hvol. clear Hout.
    destruct (Hs' 0 0 63 2 40) as (v & -> & ->); [lia..|]. reflexivity.
Defined.

(** *** The divisor of the gradient *)

Lemma for_each_raises {A S} (body : A → S → option S) (ks : list A) (k : A) s :
  k ∈ ks → (∀ s', body k s' = None) → for_each ks body s = None.
Proof.
  intros Hk Hfail. revert s.
  induction ks as [|k0 ks IH]; intros s; [by apply elem_of_nil in Hk|].
  simpl. apply elem_of_cons in Hk as [<- | Hk].
  - by rewrite Hfail.
  - destruct (body k0 s); simpl; [by apply IH|done].
Qed.

Lemma gradient_data_depth_one width height :
  0 < width → 0 < height → gradient_data width height 1 = None.
Proof.
  intros Hw Hh. unfold gradient_data.
  rewrite (for_each_nest3 (λ x y z data,
    value ← floordiv (z * 255) (1 - 1); append data value)).
  apply (for_each_raises _ _ (0, 0, 0)).
  - apply elem_of_keys3. lia.
  - intros data. reflexivity.
Qed.

(** C3 (counterexample): with a depth of 1 the gradient loop divides by
    [depth - 1 = 0] and raises. *)
Lemma C3_depth_one_divides_by_zero :
  floordiv (0 * 255) (1 - 1) = None ∧ gradient_data 16 16 1 = None.
Proof. split; [reflexivity|]. apply gradient_data_depth_one; lia. Qed.

(** C3 (amended): the divisor [depth - 1] is not clamped.  The
    computation neither divides by zero nor raises for the generated
    depth of 16, nor for any depth other than 1 (for a depth of 0 the
    loop body never runs and the data is empty); for a depth of 1 with
    non-empty slices it raises. *)
Theorem C3_gradient_divisor_unguarded :
  is_Some create_simple_test_volume
  ∧ (∀ width height depth, depth ≠ 1 →
       is_Some (gradient_data width height depth))
  ∧ (∀ width height, gradient_data width height 0 = Some [])
  ∧ (∀ width height, 0 < width → 0 < height →
       gradient_data width height 1 = None).
Proof.
  split; [|split; [|split]].
  - destruct create_simple_test_volume_eq as (out & -> & _). by eexists.
  - intros width height depth Hd. rewrite gradient_data_eq by exact Hd.
    by eexists.
  - intros width height. rewrite gradient_data_eq by lia. reflexivity.
  - apply gradient_data_depth_one.
Qed.

Lemma C3_gradient_divisor_unguarded_witness :
  is_Some (gradient_data 16 16 16) ∧ gradient_data 3 2 1 = None.
Proof.
  destruct C3_gradient_divisor_unguarded as (_ & Hok & _ & Hraise).
  split; [apply Hok; lia|apply Hraise; lia].
Defined.

(** *** The sphere volume *)

(** C4: in the 32-cube sphere volume (centre 16, radius 12) a voxel
    whose distance from the centre is at least the radius is 0, the
    voxel at distance 0 is strictly positive, and a voxel at distance
    below the radius holds [int((1 - dist/radius) * 4095)], which is
    the integer part of the exact [4095 * (1 - dist/radius)]; the code
    compares with a strict [<], and that floating-point test agrees
    with the exact one on squared distances. *)
Theorem C4_sphere_falloff :
  ∃ vol, sphere_volume = Some vol
    ∧ ∀ x y z, 0 ≤ x < 32 → 0 ≤ y < 32 → 0 ≤ z < 32 →
        let dist := distance 16 x y z in
        let radius := float_of_int 12 in
        ∃ v, getitem vol (x, y, z) = Some v
          ∧ PrimFloat.ltb dist radius = (squared_distance x y z <? 144)
          ∧ PrimFloat.leb radius dist = (144 <=? squared_distance x y z)
          ∧ (PrimFloat.leb radius dist = true → v = 0)
          ∧ (PrimFloat.eqb dist (float_of_int 0) = true → 0 < v)
          ∧ (PrimFloat.ltb dist radius = true →
               falloff 12 dist = Some v
               ∧ floor_of_falloff (squared_distance x y z) v).
Proof.
  destruct sphere_volume_spec as (vol & Hvol & _ & _ & _ & Hget).
  exists vol. ran Hvol. intros x y z Hx Hy Hz dist radius.
  subst dist radius. rewrite Hget by assumption.
  destruct (distance_compare x y z Hx Hy Hz) as [Hleb Heqb].
  destruct (Z.lt_ge_cases (squared_distance x y z) 144) as [Hd|Hd].
  - destruct (sphere_cell_inside x y z Hx Hy Hz Hd)
      as (Hlt & v & Hfall & Hcell & Hfl).
    exists v. rewrite Hcell, Hlt, Hleb, Heqb.
    split; [reflexivity|]. split; [symmetry; by apply Z.ltb_lt|].
    split; [reflexivity|]. split; [|split].
    + rewrite Z.leb_le. lia.
    + rewrite Z.eqb_eq. intros H0. rewrite H0 in Hfl.
      destruct Hfl as (_ & _ & [-> | Hlow]); [lia|].
      pose proof (Z.square_nonneg (12 * (4094 - v))) as Hsq.
      rewrite <- Z.pow_2_r in Hsq. lia.
    + intros _. split; assumption.
  - destruct (sphere_cell_outside x y z Hx Hy Hz Hd) as (Hlt & Hcell).
    exists 0. rewrite Hcell, Hlt, Hleb, Heqb.
    split; [reflexivity|]. split; [symmetry; apply Z.ltb_ge; lia|].
    split; [reflexivity|]. split; [reflexivity|]. split; [|discriminate].
    rewrite Z.eqb_eq. lia.
Qed.

Lemma C4_sphere_falloff_witness :
  ∃ vol, sphere_volume = Some vol
    ∧ getitem vol (4, 16, 16) = Some 0
    ∧ (∃ v, getitem vol (16, 16, 16) = Some v ∧ 0 < v)
    ∧ getitem vol (16, 16, 12) = falloff 12 (distance 16 16 16 12).
Proof.
  destruct C4_sphere_falloff as (vol & Hvol & Hcells).
  exists vol. ran Hvol. split; [|split].
  - destruct (Hcells 4 16 16) as (v & Hv & _ & _ & Hzero & _); [lia..|].
    rewrite Hv, Hzero; [reflexivity|vm_compute; reflexivity].
  - destruct (Hcells 16 16 16) as (v & Hv & _ & _ & _ & Hpos & _); [lia..|].
    exists v. split; [exact Hv|]. apply Hpos. vm_compute. reflexivity.
  - destruct (Hcells 16 16 12) as (v & Hv & _ & _ & _ & _ & Hin); [lia..|].
    destruct Hin as [Hfall _]; [vm_compute; reflexivity|].
    rewrite Hv, Hfall. reflexivity.
Defined.

(** C9: every voxel of the uint16 sphere volume is at most 4095,
    although the element type reaches 65535. *)
Theorem C9_sphere_values_at_most_4095 :
  ∃ vol, sphere_volume = Some vol
    ∧ nd_dtype vol = uint16
    ∧ dtype_max (nd_dtype vol) = 65535
    ∧ (∀ x y z, 0 ≤ x < 32 → 0 ≤ y < 32 → 0 ≤ z < 32 →
         ∃ v, getitem vol (x, y, z) = Some v ∧ 0 ≤ v ≤ 4095)
    ∧ Forall (λ v, 0 ≤ v ≤ 4095) (nd_buffer vol).
Proof.
  destruct sphere_volume_spec as (vol & Hvol & Hdt & Hsh & Hwf & Hget).
  exists vol. ran Hvol.
  assert (∀ x y z, 0 ≤ x < 32 → 0 ≤ y < 32 → 0 ≤ z < 32 →
    ∃ v, getitem vol (x, y, z) = Some v ∧ 0 ≤ v ≤ 4095) as Hcells.
  { intros x y z Hx Hy Hz. rewrite Hget by assumption.
    eexists. split; [reflexivity|].
    destruct (Z.lt_ge_cases (squared_distance x y z) 144) as [Hd|Hd].
    - destruct (sphere_cell_inside x y z Hx Hy Hz Hd)
        as (_ & v & _ & -> & Hv & _). exact Hv.
    - destruct (sphere_cell_outside x y z Hx Hy Hz Hd) as (_ & ->).
      simpl. lia. }
  split; [exact Hdt|]. split; [rewrite Hdt; reflexivity|].
  split; [exact Hcells|].
  apply Forall_lookup. intros p v Hp.
  pose proof (lookup_lt_Some _ _ _ Hp) as Hlen.
  unfold well_formed in Hwf. rewrite Hsh in Hwf. cbn [fst snd] in Hwf.
  pose (q := Z.of_nat p).
  assert (0 ≤ q < 32768) as Hq by (subst q; lia).
  assert (p = Z.to_nat q) as Hpq by (subst q; lia). clearbody q.
  destruct (Hcells (q / 1024) (q / 32 mod 32) (q mod 32)) as (v' & Hv' & Hb);
    [Z.to_euclidean_division_equations; lia..|].
  rewrite getitem_in_bounds in Hv'
    by (rewrite Hsh; unfold in_bounds; cbn [fst snd];
        Z.to_euclidean_division_equations; lia).
  rewrite Hsh in Hv'. unfold c_offset in Hv'. cbn [fst snd] in Hv'.
  replace ((q / 1024 * 32 + q / 32 mod 32) * 32 + q mod 32)
    with q in Hv' by (Z.to_euclidean_division_equations; lia).
  rewrite <- Hpq in Hv'.
  rewrite Hp in Hv'. injection Hv' as ->. exact Hb.
Qed.

Lemma C9_sphere_values_at_most_4095_witness :
  ∃ vol, sphere_volume = Some vol
    ∧ ∃ v, getitem vol (16, 16, 16) = Some v ∧ 0 ≤ v ≤ 4095.
Proof.
  destruct C9_sphere_values_at_most_4095 as (vol & Hvol & _ & _ & Hcells & _).
  exists vol. ran Hvol. apply (Hcells 16 16 16); lia.
Defined.

(** *** Checkerboard volumes *)

(** Block coordinate along one axis, for blocks of 8 voxels. *)
Definition block (c : Z) : Z := c / 8.

(** Two voxel indices whose block triples differ by exactly one in
    exactly one axis and agree in the other two. *)
Definition adjacent_blocks (p q : Z * Z * Z) : Prop :=
  let step a b := block a - block b = 1 ∨ block b - block a = 1 in
  (step p.1.1 q.1.1 ∧ block p.1.2 = block q.1.2 ∧ block p.2 = block q.2)
  ∨ (block p.1.1 = block q.1.1 ∧ step p.1.2 q.1.2 ∧ block p.2 = block q.2)
  ∨ (block p.1.1 = block q.1.1 ∧ block p.1.2 = block q.1.2 ∧ step p.2 q.2).

Definition opposite_values (v v' : Z) : Prop :=
  (v = 255 ∧ v' = 0) ∨ (v = 0 ∧ v' = 255).

Lemma checker_value_adjacent p q :
  adjacent_blocks p q →
  opposite_values (checker_value p.1.1 p.1.2 p.2)
                  (checker_value q.1.1 q.1.2 q.2).
Proof.
  destruct p as [[x y] z], q as [[x' y'] z'].
  unfold adjacent_blocks, opposite_values, checker_value, block.
  cbn [fst snd]. cbv zeta. intros Hadj.
  destruct (Z.eqb_spec (((x / 8) mod 2 + (y / 8) mod 2 + (z / 8) mod 2) mod 2) 0),
    (Z.eqb_spec
       (((x' / 8) mod 2 + (y' / 8) mod 2 + (z' / 8) mod 2) mod 2) 0);
    [exfalso|left; split; reflexivity|right; split; reflexivity|exfalso];
    Z.to_euclidean_division_equations; lia.
Qed.

Lemma checker_cell_value x y z :
  default 0 (checker_cell x y z) = checker_value x y z.
Proof. unfold checker_cell, checker_value. cbv zeta. by destruct (_ =? 0). Qed.

(** C5: in both checkerboards (32-cube of generate_simple_test.py and
    64-cube of generate_test_data.py, blocks of 8) two voxels in
    adjacent blocks have opposite values, one 255 and the other 0. *)
Theorem C5_checkerboard_adjacent_blocks_opposite :
  (∃ out, create_checkerboard_test = Some out
     ∧ ∀ p q,
         in_bounds (32, 32, 32) p → in_bounds (32, 32, 32) q →
         adjacent_blocks p q →
         ∃ v v', voxel_at (raw_bytes out) 32 32 p.1.1 p.1.2 p.2 = Some v
               ∧ voxel_at (raw_bytes out) 32 32 q.1.1 q.1.2 q.2 = Some v'
               ∧ opposite_values v v')
  ∧ (∃ vol, checker_volume = Some vol
       ∧ ∀ p q,
           in_bounds (64, 64, 64) p → in_bounds (64, 64, 64) q →
           adjacent_blocks p q →
           ∃ v v', getitem vol p = Some v ∧ getitem vol q = Some v'
                 ∧ opposite_values v v').
Proof.
  split.
  - destruct create_checkerboard_test_eq as (out & Hrun & Hraw & _).
    exists out. ran Hrun. rewrite Hraw.
    intros [[x y] z] [[x' y'] z'] Hp Hq Hadj.
    unfold in_bounds in Hp, Hq. cbn [fst snd] in Hp, Hq. cbn [fst snd].
    rewrite !(voxel_at_fmap_keys3 (λ k, checker_value k.1.1 k.1.2 k.2)) by lia.
    eexists _, _. split; [reflexivity|]. split; [reflexivity|].
    apply (checker_value_adjacent (x, y, z) (x', y', z') Hadj).
  - destruct checker_volume_spec as (vol & Hvol & _ & _ & _ & Hget).
    exists vol. ran Hvol.
    intros [[x y] z] [[x' y'] z'] Hp Hq Hadj.
    unfold in_bounds in Hp, Hq. cbn [fst snd] in Hp, Hq.
    rewrite !Hget by lia. rewrite !checker_cell_value.
    eexists _, _. split; [reflexivity|]. split; [reflexivity|].
    apply (checker_value_adjacent (x, y, z) (x', y', z') Hadj).
Qed.

Lemma C5_checkerboard_adjacent_blocks_opposite_witness :
  (∃ out, create_checkerboard_test = Some out
     ∧ ∃ v v', voxel_at (raw_bytes out) 32 32 3 9 20 = Some v
             ∧ voxel_at (raw_bytes out) 32 32 3 17 23 = Some v'
             ∧ opposite_values v v')
  ∧ (∃ vol, checker_volume = Some vol
       ∧ ∃ v v', getitem vol (7, 9, 63) = Some v
               ∧ getitem vol (8, 15, 56) = Some v'
               ∧ opposite_values v v').
Proof.
  destruct C5_checkerboard_adjacent_blocks_opposite
    as [(out & Hout & Hs) (vol & Hvol & Hs')].
  split.
  - exists out. ran Hout. clear Hvol.
    apply (Hs (3, 9, 20) (3, 17, 23)).
    + unfold in_bounds. cbn [fst snd]. lia.
    + unfold in_bounds. cbn [fst snd]. lia.
    + right. left. vm_compute. intuition.
  - exists vol. ran Hvol. clear Hout.
    apply (Hs' (7, 9, 63) (8, 15, 56)).
    + unfold in_bounds. cbn [fst snd]. lia.
    + unfold in_bounds. cbn [fst snd]. lia.
    + left. vm_compute. intuition.
Defined.

(** *** Sizes and metadata *)

(** The raw file has [width * height * depth * size] bytes, and that is
    the length the metadata announces. *)
Definition sized (out : volume_files) (width height depth size : Z) : Prop :=
  Z.of_nat (length (raw_bytes out)) = width * height * depth * size
  ∧ declared_byte_length (metadata out)
    = Some (Z.of_nat (length (raw_bytes out))).

Lemma length_tofile_cube vol n :
  well_formed vol → nd_shape vol = (n, n, n) →
  Z.of_nat (length (tofile vol)) = n * n * n * itemsize (nd_dtype vol).
Proof.
  intros Hwf Hsh. rewrite length_tofile. unfold well_formed in Hwf.
  rewrite Hwf, Hsh. reflexivity.
Qed.

(** C6: for each of the five generated pairs the raw byte length is
    width x height x depth x element size, and the product of the
    metadata's dimensions times the size of its dataType equals the
    length of the raw data. *)
Theorem C6_byte_length_matches_metadata :
  (∃ out, create_simple_test_volume = Some out ∧ sized out 16 16 16 1)
  ∧ (∃ out, create_checkerboard_test = Some out ∧ sized out 32 32 32 1)
  ∧ (∃ out, create_test_volume_uint8 = Some out ∧ sized out 64 64 64 1)
  ∧ (∃ out, create_test_volume_uint16 = Some out ∧ sized out 32 32 32 2)
  ∧ (∃ out, create_test_volume_checker = Some out ∧ sized out 64 64 64 1).
Proof.
  split; [|split; [|split; [|split]]].
  - destruct create_simple_test_volume_eq as (out & Hrun & Hraw & Hmeta).
    exists out. ran Hrun. unfold sized. rewrite Hraw, Hmeta.
    rewrite length_fmap_keys3 by lia. split; reflexivity.
  - destruct create_checkerboard_test_eq as (out & Hrun & Hraw & Hmeta).
    exists out. ran Hrun. unfold sized. rewrite Hraw, Hmeta.
    rewrite length_fmap_keys3 by lia. split; reflexivity.
  - destruct gradient_volume_spec as (vol & Hvol & Hdt & Hsh & Hwf & _).
    destruct (create_test_volume_uint8_eq vol Hvol)
      as (out & Hout & Hraw & Hmeta).
    clear Hvol. exists out. ran Hout. unfold sized. rewrite Hraw, Hmeta.
    rewrite (length_tofile_cube vol 64), Hdt by assumption.
    split; reflexivity.
  - destruct sphere_volume_spec as (vol & Hvol & Hdt & Hsh & Hwf & _).
    destruct (create_test_volume_uint16_eq vol Hvol)
      as (out & Hout & Hraw & Hmeta).
    clear Hvol. exists out. ran Hout. unfold sized. rewrite Hraw, Hmeta.
    rewrite (length_tofile_cube vol 32), Hdt by assumption.
    split; reflexivity.
  - destruct checker_volume_spec as (vol & Hvol & Hdt & Hsh & Hwf & _).
    destruct (create_test_volume_checker_eq vol Hvol)
      as (out & Hout & Hraw & Hmeta).
    clear Hvol. exists out. ran Hout. unfold sized. rewrite Hraw, Hmeta.
    rewrite (length_tofile_cube vol 64), Hdt by assumption.
    split; reflexivity.
Qed.

(** A sidecar with exactly the five fields, in the shapes the viewer
    expects. *)
Definition sidecar (m : metadata_dict) (width height depth : Z)
    (tag : string) : Prop :=
  ∃ sx sy sz description,
    m = [("dimensions", JList [JInt width; JInt height; JInt depth]);
         ("dataType", JStr tag);
         ("byteOrder", JStr "little-endian");
         ("spacing", JList [JFloat sx; JFloat sy; JFloat sz]);
         ("description", JStr description)].

(** C8: every metadata record has exactly the fields dimensions (three
    integers: width, height, depth), dataType ("uint8" or "uint16", the
    element type of the raw data), byteOrder ("little-endian"), spacing
    (three floats) and description (a string). *)
Theorem C8_metadata_fields :
  (∃ out, create_simple_test_volume = Some out
     ∧ sidecar (metadata out) 16 16 16 "uint8"
     ∧ Forall (λ b, 0 ≤ b < 256) (raw_bytes out))
  ∧ (∃ out, create_checkerboard_test = Some out
       ∧ sidecar (metadata out) 32 32 32 "uint8"
       ∧ Forall (λ b, 0 ≤ b < 256) (raw_bytes out))
  ∧ (∃ vol out, gradient_volume = Some vol
       ∧ create_test_volume_uint8 = Some out
       ∧ nd_shape vol = (64, 64, 64)
       ∧ sidecar (metadata out) 64 64 64 (dtype_name (nd_dtype vol))
       ∧ dtype_name (nd_dtype vol) = "uint8")
  ∧ (∃ vol out, sphere_volume = Some vol
       ∧ create_test_volume_uint16 = Some out
       ∧ nd_shape vol = (32, 32, 32)
       ∧ sidecar (metadata out) 32 32 32 (dtype_name (nd_dtype vol))
       ∧ dtype_name (nd_dtype vol) = "uint16")
  ∧ (∃ vol out, checker_volume = Some vol
       ∧ create_test_volume_checker = Some out
       ∧ nd_shape vol = (64, 64, 64)
       ∧ sidecar (metadata out) 64 64 64 (dtype_name (nd_dtype vol))
       ∧ dtype_name (nd_dtype vol) = "uint8").
Proof.
  split; [|split; [|split; [|split]]].
  - destruct create_simple_test_volume_eq as (out & Hrun & Hraw & Hmeta).
    exists out. ran Hrun. rewrite Hraw, Hmeta. split.
    + eexists _, _, _, _. reflexivity.
    + apply Forall_fmap, Forall_forall. intros [[x y] z] Hk.
      apply elem_of_keys3 in Hk as (_ & _ & Hz). cbn [snd compose].
      apply (gradient_value_byte 16 z); lia.
  - destruct create_checkerboard_test_eq as (out & Hrun & Hraw & Hmeta).
    exists out. ran Hrun. rewrite Hraw, Hmeta. split.
    + eexists _, _, _, _. reflexivity.
    + apply Forall_fmap, Forall_forall. intros [[x y] z] _.
      cbn [fst snd compose].
      destruct (checker_value_cases x y z) as [-> | ->]; lia.
  - destruct gradient_volume_spec as (vol & Hvol & Hdt & Hsh & _).
    destruct (create_test_volume_uint8_eq vol Hvol)
      as (out & Hout & _ & Hmeta).
    exists vol, out. ran Hvol. ran Hout. rewrite Hmeta, Hdt.
    split; [exact Hsh|]. split; [|reflexivity].
    eexists _, _, _, _. reflexivity.
  - destruct sphere_volume_spec as (vol & Hvol & Hdt & Hsh & _).
    destruct (create_test_volume_uint16_eq vol Hvol)
      as (out & Hout & _ & Hmeta).
    exists vol, out. ran Hvol. ran Hout. rewrite Hmeta, Hdt.
    split; [exact Hsh|]. split; [|reflexivity].
    eexists _, _, _, _. reflexivity.
  - destruct checker_volume_spec as (vol & Hvol & Hdt & Hsh & _).
    destruct (create_test_volume_checker_eq vol Hvol)
      as (out & Hout & _ & Hmeta).
    exists vol, out. ran Hvol. ran Hout. rewrite Hmeta, Hdt.
    split; [exact Hsh|]. split; [|reflexivity].
    eexists _, _, _, _. reflexivity.
Qed.

(** ** Further properties of the gradient volumes *)

(** X1: the 16-cube gradient rises in equal steps of 17 per slice,
    [voxel (x, y, z) = 17 * z], so the value strictly increases
    with [z] and distinct slices never share a value. *)
Theorem X1_simple_gradient_steps_of_17 :
  ∃ out, create_simple_test_volume = Some out
    ∧ ∀ x y z, 0 ≤ x < 16 → 0 ≤ y < 16 → 0 ≤ z < 16 →
        voxel_at (raw_bytes out) 16 16 x y z = Some (17 * z)
        ∧ ∀ x' y' z', 0 ≤ x' < 16 → 0 ≤ y' < 16 → z < z' → z' < 16 →
            ∃ v', voxel_at (raw_bytes out) 16 16 x' y' z' = Some v'
                ∧ 17 * z < v'.
Proof.
  destruct create_simple_test_volume_eq as (out & Hrun & Hraw & _).
  exists out. ran Hrun. rewrite Hraw.
  assert (∀ x y z, 0 ≤ x < 16 → 0 ≤ y < 16 → 0 ≤ z < 16 →
    voxel_at ((λ k, k.2 * 255 / 15) <$> keys3 16 16 16) 16 16 x y z
    = Some (17 * z)) as Hvox.
  { intros x y z Hx Hy Hz.
    rewrite (voxel_at_fmap_keys3 (λ k, k.2 * 255 / 15)) by lia. cbn [snd].
    f_equal. replace (z * 255) with (17 * z * 15) by lia.
    apply Z.div_mul. lia. }
  intros x y z Hx Hy Hz. split; [by apply Hvox|].
  intros x' y' z' Hx' Hy' Hlt Hz'. exists (17 * z').
  split; [apply Hvox; lia|lia].
Qed.

Lemma X1_simple_gradient_steps_of_17_witness :
  ∃ out, create_simple_test_volume = Some out
    ∧ voxel_at (raw_bytes out) 16 16 2 3 5 = Some 85.
Proof.
  destruct X1_simple_gradient_steps_of_17 as (out & Hout & Hvox).
  exists out. ran Hout.
  destruct (Hvox 2 3 5) as [Hv _]; [lia..|]. exact Hv.
Defined.

(** X2: in the file of the 64-cube gradient the value grows along the
    fastest-varying position, not the slowest: read with [x] fastest,
    position [((z*64)+y)*64 + x] holds [4 * x] for every index, while
    the array element [volume[x, y, z]] is [4 * z]. *)
Theorem X2_uint8_gradient_file_runs_along_x :
  ∃ vol out, gradient_volume = Some vol
    ∧ create_test_volume_uint8 = Some out
    ∧ ∀ x y z, 0 ≤ x < 64 → 0 ≤ y < 64 → 0 ≤ z < 64 →
        getitem vol (x, y, z) = Some (4 * z)
        ∧ voxel_at (raw_bytes out) 64 64 x y z = Some (4 * x).
Proof.
  destruct gradient_volume_spec as (vol & Hvol & Hdt & Hsh & _ & Hget).
  destruct (create_test_volume_uint8_eq vol Hvol) as (out & Hout & Hraw & _).
  exists vol, out. ran Hvol. ran Hout. intros x y z Hx Hy Hz. split.
  - rewrite Hget by lia. f_equal. lia.
  - unfold voxel_at. rewrite Hraw, tofile_uint8 by exact Hdt.
    rewrite (buffer_at_flat_position vol 64) by (exact Hsh || lia).
    rewrite Hget by lia. f_equal. lia.
Qed.

Lemma X2_uint8_gradient_file_runs_along_x_witness :
  ∃ vol out, gradient_volume = Some vol
    ∧ create_test_volume_uint8 = Some out
    ∧ getitem vol (10, 0, 3) = Some 12
    ∧ voxel_at (raw_bytes out) 64 64 10 0 3 = Some 40.
Proof.
  destruct X2_uint8_gradient_file_runs_along_x as (vol & out & Hvol & Hout & H).
  exists vol, out. ran Hvol. ran Hout. apply (H 10 0 3); lia.
Defined.

(** X3: both files of generate_simple_test.py are laid out with [z]
    slowest and [x] fastest: position [((z*height)+y)*width + x] holds
    the value computed for index [(x, y, z)]. *)
Theorem X3_bytearray_files_z_slowest :
  (∃ out, create_simple_test_volume = Some out
     ∧ ∀ x y z, 0 ≤ x < 16 → 0 ≤ y < 16 → 0 ≤ z < 16 →
         raw_bytes out !! Z.to_nat ((z * 16 + y) * 16 + x)
         = Some (z * 255 / (16 - 1)))
  ∧ (∃ out, create_checkerboard_test = Some out
       ∧ ∀ x y z, 0 ≤ x < 32 → 0 ≤ y < 32 → 0 ≤ z < 32 →
           raw_bytes out !! Z.to_nat ((z * 32 + y) * 32 + x)
           = Some (checker_value x y z)).
Proof.
  split.
  - destruct create_simple_test_volume_eq as (out & Hrun & Hraw & _).
    exists out. ran Hrun. rewrite Hraw. intros x y z Hx Hy Hz.
    apply (voxel_at_fmap_keys3 (λ k, k.2 * 255 / 15)); assumption.
  - destruct create_checkerboard_test_eq as (out & Hrun & Hraw & _).
    exists out. ran Hrun. rewrite Hraw. intros x y z Hx Hy Hz.
    apply (voxel_at_fmap_keys3 (λ k, checker_value k.1.1 k.1.2 k.2));
      assumption.
Qed.

Lemma X3_bytearray_files_z_slowest_witness :
  (∃ out, create_simple_test_volume = Some out
     ∧ raw_bytes out !! 513%nat = Some 34)
  ∧ (∃ out, create_checkerboard_test = Some out
       ∧ raw_bytes out !! 8%nat = Some 0).
Proof.
  destruct X3_bytearray_files_z_slowest as [(out & Hout & H) (out' & Hout' & H')].
  split.
  - exists out. ran Hout. clear Hout'. apply (H 1 0 2); lia.
  - exists out'. ran Hout'. clear Hout. apply (H' 8 0 0); lia.
Defined.

(** ** Further properties of the checkerboards *)

Lemma checker_value_same_block x y z x' y' z' :
  block x = block x' → block y = block y' → block z = block z' →
  checker_value x y z = checker_value x' y' z'.
Proof.
  unfold block, checker_value. cbv zeta. by intros -> -> ->.
Qed.

(** X4: inside one 8x8x8 block a checkerboard is constant: two voxels
    with the same block coordinates have the same value, in the 32-cube
    of generate_simple_test.py and in the 64-cube of
    generate_test_data.py. *)
Theorem X4_checkerboard_constant_on_blocks :
  (∃ out, create_checkerboard_test = Some out
     ∧ ∀ p q,
         in_bounds (32, 32, 32) p → in_bounds (32, 32, 32) q →
         block p.1.1 = block q.1.1 → block p.1.2 = block q.1.2 →
         block p.2 = block q.2 →
         ∃ v, voxel_at (raw_bytes out) 32 32 p.1.1 p.1.2 p.2 = Some v
            ∧ voxel_at (raw_bytes out) 32 32 q.1.1 q.1.2 q.2 = Some v)
  ∧ (∃ vol, checker_volume = Some vol
       ∧ ∀ p q,
           in_bounds (64, 64, 64) p → in_bounds (64, 64, 64) q →
           block p.1.1 = block q.1.1 → block p.1.2 = block q.1.2 →
           block p.2 = block q.2 →
           ∃ v, getitem vol p = Some v ∧ getitem vol q = Some v).
Proof.
  split.
  - destruct create_checkerboard_test_eq as (out & Hrun & Hraw & _).
    exists out. ran Hrun. rewrite Hraw.
    intros [[x y] z] [[x' y'] z'] Hp Hq. unfold in_bounds in Hp, Hq.
    cbn [fst snd] in *. intros Hbx Hby Hbz.
    rewrite !(voxel_at_fmap_keys3 (λ k, checker_value k.1.1 k.1.2 k.2)) by lia.
    cbn [fst snd]. eexists. split; [reflexivity|].
    f_equal. symmetry. by apply checker_value_same_block.
  - destruct checker_volume_spec as (vol & Hvol & _ & _ & _ & Hget).
    exists vol. ran Hvol.
    intros [[x y] z] [[x' y'] z'] Hp Hq. unfold in_bounds in Hp, Hq.
    cbn [fst snd] in *. intros Hbx Hby Hbz.
    rewrite !Hget by lia. rewrite !checker_cell_value.
    eexists. split; [reflexivity|].
    f_equal. symmetry. by apply checker_value_same_block.
Qed.

Lemma X4_checkerboard_constant_on_blocks_witness :
  (∃ out, create_checkerboard_test = Some out
     ∧ voxel_at (raw_bytes out) 32 32 8 0 31 = voxel_at (raw_bytes out) 32 32 15 7 24)
  ∧ (∃ vol, checker_volume = Some vol
       ∧ getitem vol (40, 0, 63) = getitem vol (47, 7, 56)).
Proof.
  destruct X4_checkerboard_constant_on_blocks
    as [(out & Hout & H) (vol & Hvol & H')].
  split.
  - exists out. ran Hout. clear Hvol.
    destruct (H (8, 0, 31) (15, 7, 24)) as (v & Hv & Hv');
      [unfold in_bounds; cbn [fst snd]; lia..
      |vm_compute; reflexivity|vm_compute; reflexivity
      |vm_compute; reflexivity|].
    cbn [fst snd] in Hv, Hv'. rewrite Hv, Hv'. reflexivity.
  - exists vol. ran Hvol. clear Hout.
    destruct (H' (40, 0, 63) (47, 7, 56)) as (v & Hv & Hv');
      [unfold in_bounds; cbn [fst snd]; lia..
      |vm_compute; reflexivity|vm_compute; reflexivity
      |vm_compute; reflexivity|].
    rewrite Hv, Hv'. reflexivity.
Defined.

Lemma checker_value_period x y z :
  checker_value (x + 16) y z = checker_value x y z
  ∧ checker_value x (y + 16) z = checker_value x y z
  ∧ checker_value x y (z + 16) = checker_value x y z.
Proof.
  unfold checker_value. cbv zeta.
  assert (∀ c, ((c + 16) / 8) mod 2 = (c / 8) mod 2) as Hper.
  { intros c. Z.to_euclidean_division_equations. lia. }
  by rewrite !Hper.
Qed.



(** X6: the two scripts draw the same checkerboard: on the common
    32-cube corner the 64-cube of generate_test_data.py holds the value
    that generate_simple_test.py writes for the same index. *)
Theorem X6_checkerboards_agree :
  ∃ out vol, create_checkerboard_test = Some out
    ∧ checker_volume = Some vol
    ∧ ∀ x y z, 0 ≤ x < 32 → 0 ≤ y < 32 → 0 ≤ z < 32 →
        getitem vol (x, y, z) = voxel_at (raw_bytes out) 32 32 x y z.
Proof.
  destruct create_checkerboard_test_eq as (out & Hrun & Hraw & _).
  destruct checker_volume_spec as (vol & Hvol & _ & _ & _ & Hget).
  exists out, vol. ran Hrun. ran Hvol. rewrite Hraw. intros x y z Hx Hy Hz.
  rewrite (voxel_at_fmap_keys3 (λ k, checker_value k.1.1 k.1.2 k.2)) by lia.
  rewrite Hget by lia. by rewrite checker_cell_value.
Qed.

Lemma X6_checkerboards_agree_witness :
  ∃ out vol, create_checkerboard_test = Some out
    ∧ checker_volume = Some vol
    ∧ getitem vol (9, 3, 30) = voxel_at (raw_bytes out) 32 32 9 3 30.
Proof.
  destruct X6_checkerboards_agree as (out & vol & Hout & Hvol & H).
  exists out, vol. ran Hout. ran Hvol. apply (H 9 3 30); lia.
Defined.

(** ** Further properties of the sphere *)

(** The stored value as a function of the squared distance alone. *)
Definition sphere_value (d2 : Z) : Z :=
  let dist := PrimFloat.sqrt (float_of_int d2) in
  if PrimFloat.ltb dist (float_of_int 12) then default 0 (falloff 12 dist)
  else 0.

Lemma sphere_cell_value x y z :
  default 0 (sphere_cell x y z) = sphere_value (squared_distance x y z).
Proof.
  unfold sphere_cell, sphere_value, distance, squared_distance. cbv zeta.
  by destruct (PrimFloat.ltb _ _).
Qed.

Lemma table_lookup (check : Z → bool) n d :
  forallb check (range n) = true → 0 ≤ d < n → check d = true.
Proof.
  intros Hall Hd. rewrite forallb_forall in Hall. apply Hall.
  by apply list_elem_of_In, elem_of_range.
Qed.

Lemma sphere_value_step d :
  0 ≤ d < 768 → sphere_value (d + 1) ≤ sphere_value d.
Proof.
  intros Hd. apply Z.leb_le.
  apply (table_lookup (λ d, sphere_value (d + 1) <=? sphere_value d) 768);
    [vm_compute; reflexivity|exact Hd].
Qed.

Lemma sphere_value_monotone d d' :
  0 ≤ d → d ≤ d' → d' ≤ 768 → sphere_value d' ≤ sphere_value d.
Proof.
  intros H0 Hle Hmax.
  replace d' with (d + Z.of_nat (Z.to_nat (d' - d))) in * by lia.
  induction (Z.to_nat (d' - d)) as [|n IH].
  - rewrite Z.add_0_r. lia.
  - etrans; [|apply IH; lia].
    replace (d + Z.of_nat (S n)) with (d + Z.of_nat n + 1) by lia.
    apply sphere_value_step. lia.
Qed.

Lemma sphere_value_positive d :
  0 ≤ d ≤ 768 → (0 <? sphere_value d) = (d <? 144).
Proof.
  intros Hd. apply eqb_true_iff.
  apply (table_lookup
    (λ d, Bool.eqb (0 <? sphere_value d) (d <? 144)) 769);
    [vm_compute; reflexivity|lia].
Qed.

Lemma sphere_value_off_centre d :
  1 ≤ d ≤ 768 → sphere_value d ≤ 3753.
Proof.
  intros Hd. apply Z.leb_le.
  replace d with (d - 1 + 1) by lia.
  apply (table_lookup (λ d, sphere_value (d + 1) <=? 3753) 768 (d - 1));
    [vm_compute; reflexivity|lia].
Qed.

Lemma small_square a : a ^ 2 < 144 → -12 < a < 12.
Proof. rewrite Z.pow_2_r. nia. Qed.

Lemma square_zero a : 0 ≤ a ^ 2 ∧ (a ^ 2 = 0 → a = 0).
Proof. rewrite Z.pow_2_r. split; nia. Qed.

Lemma inside_sphere_box x y z :
  squared_distance x y z < 144 →
  -12 < x - 16 < 12 ∧ -12 < y - 16 < 12 ∧ -12 < z - 16 < 12.
Proof.
  unfold squared_distance. intros Hd.
  destruct (square_zero (x - 16)) as [Hx _].
  destruct (square_zero (y - 16)) as [Hy _].
  destruct (square_zero (z - 16)) as [Hz _].
  split; [|split]; apply small_square; lia.
Qed.

Lemma squared_distance_zero x y z :
  squared_distance x y z = 0 → (x, y, z) = (16, 16, 16).
Proof.
  unfold squared_distance. intros Hd.
  destruct (square_zero (x - 16)) as [Hx Hx0].
  destruct (square_zero (y - 16)) as [Hy Hy0].
  destruct (square_zero (z - 16)) as [Hz Hz0].
  f_equal; [f_equal|]; lia.
Qed.

(** X7: a voxel of the sphere volume is non-zero exactly when its
    squared distance to (16, 16, 16) is below [12 * 12]; all non-zero
    voxels lie in the box [5..27] on every axis, so the border planes
    of the cube are empty. *)
Theorem X7_sphere_support :
  ∃ vol, sphere_volume = Some vol
    ∧ ∀ x y z, 0 ≤ x < 32 → 0 ≤ y < 32 → 0 ≤ z < 32 →
        ∃ v, getitem vol (x, y, z) = Some v
          ∧ (0 < v ↔ squared_distance x y z < 144)
          ∧ (0 < v → 5 ≤ x ≤ 27 ∧ 5 ≤ y ≤ 27 ∧ 5 ≤ z ≤ 27).
Proof.
  destruct sphere_volume_spec as (vol & Hvol & _ & _ & _ & Hget).
  exists vol. ran Hvol. intros x y z Hx Hy Hz.
  rewrite Hget by assumption. rewrite sphere_cell_value.
  eexists. split; [reflexivity|].
  pose proof (squared_distance_bounds x y z Hx Hy Hz) as Hb.
  pose proof (sphere_value_positive _ Hb) as Hpos.
  assert (0 < sphere_value (squared_distance x y z)
          ↔ squared_distance x y z < 144) as Hiff.
  { rewrite <- Z.ltb_lt, Hpos. apply Z.ltb_lt. }
  split; [exact Hiff|]. intros Hv. apply Hiff in Hv.
  apply inside_sphere_box in Hv. lia.
Qed.

Lemma X7_sphere_support_witness :
  ∃ vol, sphere_volume = Some vol
    ∧ ∃ v, getitem vol (5, 16, 16) = Some v ∧ 0 < v.
Proof.
  destruct X7_sphere_support as (vol & Hvol & H).
  exists vol. ran Hvol.
  destruct (H 5 16 16) as (v & Hv & Hiff & _); [lia..|].
  exists v. split; [exact Hv|]. apply Hiff. vm_compute. reflexivity.
Defined.

(** X8: the sphere is radially symmetric and falls off outwards: the
    value depends on the squared distance to the centre only, and a
    voxel that is no nearer to the centre than another holds no larger
    a value. *)
Theorem X8_sphere_radial_falloff :
  ∃ vol, sphere_volume = Some vol
    ∧ ∀ p q,
        in_bounds (32, 32, 32) p → in_bounds (32, 32, 32) q →
        squared_distance p.1.1 p.1.2 p.2 ≤ squared_distance q.1.1 q.1.2 q.2 →
        ∃ v w, getitem vol p = Some v ∧ getitem vol q = Some w ∧ w ≤ v
          ∧ (squared_distance p.1.1 p.1.2 p.2
             = squared_distance q.1.1 q.1.2 q.2 → v = w).
Proof.
  destruct sphere_volume_spec as (vol & Hvol & _ & _ & _ & Hget).
  exists vol. ran Hvol.
  intros [[x y] z] [[x' y'] z'] Hp Hq. unfold in_bounds in Hp, Hq.
  cbn [fst snd] in *. intros Hle.
  rewrite !Hget by lia. rewrite !sphere_cell_value.
  eexists _, _. split; [reflexivity|]. split; [reflexivity|].
  pose proof (squared_distance_bounds x y z) as Hb.
  pose proof (squared_distance_bounds x' y' z') as Hb'.
  split; [apply sphere_value_monotone; lia|]. by intros ->.
Qed.

Lemma X8_sphere_radial_falloff_witness :
  ∃ vol, sphere_volume = Some vol
    ∧ getitem vol (13, 16, 20) = getitem vol (16, 21, 16).
Proof.
  destruct X8_sphere_radial_falloff as (vol & Hvol & H).
  exists vol. ran Hvol.
  destruct (H (13, 16, 20) (16, 21, 16)) as (v & w & Hv & Hw & _ & Heq);
    [unfold in_bounds; cbn [fst snd]; lia..|vm_compute; discriminate|].
  rewrite Hv, Hw, Heq; [reflexivity|vm_compute; reflexivity].
Defined.

(** X9: the maximum 4095 is stored at the centre voxel (16, 16, 16)
    and nowhere else; every other voxel is at most 3753. *)
Theorem X9_sphere_peak_at_centre :
  ∃ vol, sphere_volume = Some vol
    ∧ getitem vol (16, 16, 16) = Some 4095
    ∧ ∀ x y z, 0 ≤ x < 32 → 0 ≤ y < 32 → 0 ≤ z < 32 →
        (x, y, z) ≠ (16, 16, 16) →
        ∃ v, getitem vol (x, y, z) = Some v ∧ v ≤ 3753.
Proof.
  destruct sphere_volume_spec as (vol & Hvol & _ & _ & _ & Hget).
  exists vol. ran Hvol. split.
  - rewrite Hget by lia. rewrite sphere_cell_value. vm_compute. reflexivity.
  - intros x y z Hx Hy Hz Hne. rewrite Hget by assumption.
    rewrite sphere_cell_value. eexists. split; [reflexivity|].
    pose proof (squared_distance_bounds x y z Hx Hy Hz) as Hb.
    apply sphere_value_off_centre. split; [|lia].
    destruct (Z.eq_dec (squared_distance x y z) 0) as [H0|H0]; [|lia].
    exfalso. apply Hne. by apply squared_distance_zero.
Qed.

Lemma X9_sphere_peak_at_centre_witness :
  ∃ vol, sphere_volume = Some vol
    ∧ ∃ v, getitem vol (16, 16, 17) = Some v ∧ v ≤ 3753.
Proof.
  destruct X9_sphere_peak_at_centre as (vol & Hvol & _ & H).
  exists vol. ran Hvol. apply (H 16 16 17); [lia..|discriminate].
Defined.

(** ** Further properties of the written files *)

Lemma tofile_uint16_lookup a p v :
  nd_dtype a = uint16 → nd_buffer a !! p = Some v →
  tofile a !! (2 * p)%nat = Some (v mod 256)
  ∧ tofile a !! (2 * p + 1)%nat = Some ((v / 256) mod 256).
Proof.
  intros Hdt Hp. unfold tofile. rewrite Hdt.
  replace (2 * p)%nat with (p * 2 + 0)%nat by lia.
  replace (p * 2 + 0 + 1)%nat with (p * 2 + 1)%nat by lia.
  split.
  - rewrite (lookup_bind_uniform _ _ 2 p 0 v); [reflexivity| |exact Hp|lia].
    intros v' _. reflexivity.
  - rewrite (lookup_bind_uniform _ _ 2 p 1 v); [reflexivity| |exact Hp|lia].
    intros v' _. reflexivity.
Qed.

(** X10: in test_volume_uint16.raw every voxel occupies two bytes, low
    byte first; read with [x] fastest, the pair at element position
    [((z*32)+y)*32 + x] decodes to [volume[x, y, z]], and the high byte
    never exceeds 15. *)
Theorem X10_sphere_file_little_endian :
  ∃ vol out, sphere_volume = Some vol
    ∧ create_test_volume_uint16 = Some out
    ∧ ∀ x y z, 0 ≤ x < 32 → 0 ≤ y < 32 → 0 ≤ z < 32 →
        ∃ v lo hi, getitem vol (x, y, z) = Some v
          ∧ raw_bytes out !! (2 * flat_position 32 32 x y z)%nat = Some lo
          ∧ raw_bytes out !! (2 * flat_position 32 32 x y z + 1)%nat = Some hi
          ∧ 0 ≤ lo < 256 ∧ 0 ≤ hi ≤ 15 ∧ lo + 256 * hi = v.
Proof.
  destruct sphere_volume_spec as (vol & Hvol & Hdt & Hsh & _ & Hget).
  destruct (create_test_volume_uint16_eq vol Hvol) as (out & Hout & Hraw & _).
  exists vol, out. ran Hvol. ran Hout. rewrite Hraw. intros x y z Hx Hy Hz.
  assert (∃ v, getitem vol (x, y, z) = Some v ∧ 0 ≤ v ≤ 4095
            ∧ nd_buffer vol !! flat_position 32 32 x y z = Some v)
    as (v & Hv & Hb & Hbuf).
  { rewrite (buffer_at_flat_position vol 32) by (exact Hsh || lia).
    rewrite !Hget by lia. rewrite (sphere_cell_swap x y z). eexists.
    split; [reflexivity|]. split; [|reflexivity].
    destruct (Z.lt_ge_cases (squared_distance x y z) 144) as [Hd|Hd].
    - destruct (sphere_cell_inside x y z Hx Hy Hz Hd)
        as (_ & w & _ & -> & Hw & _). exact Hw.
    - destruct (sphere_cell_outside x y z Hx Hy Hz Hd) as (_ & ->).
      simpl. lia. }
  destruct (tofile_uint16_lookup vol _ v Hdt Hbuf) as [Hlo Hhi].
  exists v, (v mod 256), ((v / 256) mod 256).
  split; [exact Hv|]. split; [exact Hlo|]. split; [exact Hhi|].
  clear Hlo Hhi Hbuf Hv Hget. Z.to_euclidean_division_equations. lia.
Qed.

Lemma X10_sphere_file_little_endian_witness :
  ∃ vol out, sphere_volume = Some vol
    ∧ create_test_volume_uint16 = Some out
    ∧ ∃ lo hi, raw_bytes out !! Z.to_nat 33824 = Some lo
             ∧ raw_bytes out !! Z.to_nat 33825 = Some hi
             ∧ getitem vol (16, 16, 16) = Some (lo + 256 * hi).
Proof.
  destruct X10_sphere_file_little_endian as (vol & out & Hvol & Hout & H).
  exists vol, out. ran Hvol. ran Hout.
  destruct (H 16 16 16) as (v & lo & hi & Hv & Hlo & Hhi & _ & _ & Hdec);
    [lia..|].
  exists lo, hi. split; [exact Hlo|]. split; [exact Hhi|].
  rewrite Hdec. exact Hv.
Defined.

(** X11: test_volume_checker.raw can be read with [x] fastest although
    NumPy wrote it with [x] slowest: the pattern is symmetric, so
    position [((z*64)+y)*64 + x] holds [volume[x, y, z]], which is 255
    or 0. *)
Theorem X11_checker_file_order_invisible :
  ∃ vol out, checker_volume = Some vol
    ∧ create_test_volume_checker = Some out
    ∧ ∀ x y z, 0 ≤ x < 64 → 0 ≤ y < 64 → 0 ≤ z < 64 →
        ∃ v, getitem vol (x, y, z) = Some v
          ∧ raw_bytes out !! Z.to_nat ((z * 64 + y) * 64 + x) = Some v
          ∧ raw_bytes out !! Z.to_nat ((x * 64 + y) * 64 + z) = Some v
          ∧ (v = 255 ∨ v = 0).
Proof.
  destruct checker_volume_spec as (vol & Hvol & Hdt & Hsh & _ & Hget).
  destruct (create_test_volume_checker_eq vol Hvol) as (out & Hout & Hraw & _).
  exists vol, out. ran Hvol. ran Hout. rewrite Hraw, tofile_uint8 by exact Hdt.
  intros x y z Hx Hy Hz. exists (checker_value x y z).
  pose proof (buffer_at_flat_position vol 64 x y z Hsh Hx Hy Hz) as Hxz.
  pose proof (buffer_at_flat_position vol 64 z y x Hsh Hz Hy Hx) as Hzx.
  unfold flat_position in Hxz, Hzx. rewrite Hxz, Hzx.
  rewrite !Hget by lia.
  rewrite (checker_cell_swap x y z), checker_cell_value.
  split; [reflexivity|]. split; [reflexivity|]. split; [reflexivity|].
  apply checker_value_cases.
Qed.

Lemma X11_checker_file_order_invisible_witness :
  ∃ vol out, checker_volume = Some vol
    ∧ create_test_volume_checker = Some out
    ∧ raw_bytes out !! 8%nat = getitem vol (8, 0, 0).
Proof.
  destruct X11_checker_file_order_invisible as (vol & out & Hvol & Hout & H).
  exists vol, out. ran Hvol. ran Hout.
  destruct (H 8 0 0) as (v & Hv & Hxfast & _); [lia..|].
  rewrite Hv. exact Hxfast.
Defined.

(** ** The loop nests for other dimensions *)

(** X12: the gradient formula [(z * 255) // (depth - 1)] spans the
    whole byte range for every depth of at least 2: the loop nest
    returns [width * height * depth] bytes, the first slice is 0, the
    last slice is 255 and the value never decreases along [z]. *)
Theorem X12_gradient_data_any_depth width height depth :
  0 ≤ width → 0 ≤ height → 2 ≤ depth →
  ∃ data, gradient_data width height depth = Some data
    ∧ Z.of_nat (length data) = width * height * depth
    ∧ gradient_along_z (voxel_at data width height) width height depth 255.
Proof.
  intros Hw Hh Hd. rewrite gradient_data_eq by lia.
  eexists. split; [reflexivity|]. split; [apply length_fmap_keys3; lia|].
  intros x y Hx Hy.
  rewrite !(voxel_at_fmap_keys3 (λ k, k.2 * 255 / (depth - 1))) by lia.
  cbn [snd]. split; [f_equal; apply Z.div_0_l; lia|].
  split; [f_equal; rewrite Z.mul_comm; apply Z.div_mul; lia|].
  intros z z' H0 Hle Hlt.
  rewrite !(voxel_at_fmap_keys3 (λ k, k.2 * 255 / (depth - 1))) by lia.
  eexists _, _. split; [reflexivity|]. split; [reflexivity|]. cbn [snd].
  apply Z.div_le_mono; lia.
Qed.

Lemma X12_gradient_data_any_depth_witness :
  ∃ data, gradient_data 3 2 5 = Some data
    ∧ Z.of_nat (length data) = 3 * 2 * 5
    ∧ voxel_at data 3 2 1 1 4 = Some 255.
Proof.
  destruct (X12_gradient_data_any_depth 3 2 5) as (data & Hrun & Hlen & Hg);
    [lia..|].
  exists data. split; [exact Hrun|]. split; [exact Hlen|].
  destruct (Hg 1 1) as (_ & Hlast & _); [lia..|]. exact Hlast.
Defined.

(** X13: the checkerboard loop nest never raises, whatever the
    dimensions: it returns [width * height * depth] bytes laid out
    with [z] slowest, and a trailing partial block follows the same
    parity rule as a full one. *)
Theorem X13_checker_data_any_dimensions width height depth :
  0 ≤ width → 0 ≤ height → 0 ≤ depth →
  ∃ data, checker_data width height depth = Some data
    ∧ Z.of_nat (length data) = width * height * depth
    ∧ ∀ x y z, 0 ≤ x < width → 0 ≤ y < height → 0 ≤ z < depth →
        voxel_at data width height x y z
        = Some (if Z.even (x / 8 + y / 8 + z / 8) then 255 else 0).
Proof.
  intros Hw Hh Hd. rewrite checker_data_eq.
  eexists. split; [reflexivity|]. split; [apply length_fmap_keys3; lia|].
  intros x y z Hx Hy Hz.
  rewrite (voxel_at_fmap_keys3 (λ k, checker_value k.1.1 k.1.2 k.2)) by lia.
  cbn [fst snd]. f_equal. unfold checker_value. cbv zeta.
  rewrite Zeven_mod.
  replace (((x / 8) mod 2 + (y / 8) mod 2 + (z / 8) mod 2) mod 2)
    with ((x / 8 + y / 8 + z / 8) mod 2); [reflexivity|].
  generalize (x / 8) (y / 8) (z / 8). intros a b c.
  Z.to_euclidean_division_equations. lia.
Qed.

Lemma X13_checker_data_any_dimensions_witness :
  ∃ data, checker_data 10 3 9 = Some data
    ∧ voxel_at data 10 3 9 2 8 = Some 255.
Proof.
  destruct (X13_checker_data_any_dimensions 10 3 9) as (data & Hrun & _ & Hv);
    [lia..|].
  exists data. split; [exact Hrun|]. apply (Hv 9 2 8); lia.
Defined.

(** ** Running the scripts *)

(** The files on disk, by path.  Directories are not modelled: the
    directory [test-data] that generate_simple_test.py creates on
    start-up is taken to exist. *)
Inductive file_content : Type :=
  | RawFile (bytes : list Z)
  | JsonFile (m : metadata_dict).

Abbreviation file_system := (gmap string file_content).

(** [open(path, 'wb')] or [open(path, 'w')] followed by a write:
    the file is created, or replaced when it exists. *)
Definition write_file (path : string) (content : file_content)
    (fs : file_system) : file_system :=
  <[path := content]> fs.

(** One generator function on the file system: the raw file is written
    first, the sidecar second. *)
Definition run (generator : option volume_files) (fs : file_system)
    : option file_system :=
  out ← generator;
  Some (write_file (json_path out) (JsonFile (metadata out))
          (write_file (raw_path out) (RawFile (raw_bytes out)) fs)).

(** generate_simple_test.py, lines 91-92. *)
Definition simple_test_main (fs : file_system) : option file_system :=
  fs ← run create_simple_test_volume fs;
  run create_checkerboard_test fs.

(** generate_test_data.py, [main], lines 112-114. *)
Definition test_data_main (fs : file_system) : option file_system :=
  fs ← run create_test_volume_uint8 fs;
  fs ← run create_test_volume_uint16 fs;
  run create_test_volume_checker fs.

Lemma create_simple_test_volume_paths :
  ∃ out, create_simple_test_volume = Some out
    ∧ raw_path out = "test-data/simple_test.raw"
    ∧ json_path out = "test-data/simple_test.json".
Proof.
  unfold create_simple_test_volume.
  rewrite (gradient_data_eq 16 16 16) by lia.
  eexists. split; [reflexivity|]. split; reflexivity.
Qed.

Lemma create_checkerboard_test_paths :
  ∃ out, create_checkerboard_test = Some out
    ∧ raw_path out = "test-data/checker_test.raw"
    ∧ json_path out = "test-data/checker_test.json".
Proof.
  unfold create_checkerboard_test.
  rewrite (checker_data_eq 32 32 32).
  eexists. split; [reflexivity|]. split; reflexivity.
Qed.

Lemma create_test_volume_uint8_paths :
  ∃ out, create_test_volume_uint8 = Some out
    ∧ raw_path out = "test_volume_uint8.raw"
    ∧ json_path out = "test_volume_uint8.json".
Proof.
  destruct gradient_volume_spec as (vol & Hvol & _).
  unfold create_test_volume_uint8. rewrite Hvol.
  eexists. split; [reflexivity|]. split; reflexivity.
Qed.

Lemma create_test_volume_uint16_paths :
  ∃ out, create_test_volume_uint16 = Some out
    ∧ raw_path out = "test_volume_uint16.raw"
    ∧ json_path out = "test_volume_uint16.json".
Proof.
  destruct sphere_volume_spec as (vol & Hvol & _).
  unfold create_test_volume_uint16. rewrite Hvol.
  eexists. split; [reflexivity|]. split; reflexivity.
Qed.

Lemma create_test_volume_checker_paths :
  ∃ out, create_test_volume_checker = Some out
    ∧ raw_path out = "test_volume_checker.raw"
    ∧ json_path out = "test_volume_checker.json".
Proof.
  destruct checker_volume_spec as (vol & Hvol & _).
  unfold create_test_volume_checker. rewrite Hvol.
  eexists. split; [reflexivity|]. split; reflexivity.
Qed.

(** What [test_data_main] leaves on disk, as a chain of six writes. *)
Lemma test_data_main_eq :
  ∃ o8 o16 oc,
    create_test_volume_uint8 = Some o8
    ∧ create_test_volume_uint16 = Some o16
    ∧ create_test_volume_checker = Some oc
    ∧ ∀ fs, test_data_main fs = Some
        (<["test_volume_checker.json" := JsonFile (metadata oc)]>
        (<["test_volume_checker.raw" := RawFile (raw_bytes oc)]>
        (<["test_volume_uint16.json" := JsonFile (metadata o16)]>
        (<["test_volume_uint16.raw" := RawFile (raw_bytes o16)]>
        (<["test_volume_uint8.json" := JsonFile (metadata o8)]>
        (<["test_volume_uint8.raw" := RawFile (raw_bytes o8)]> fs)))))).
Proof.
  destruct create_test_volume_uint8_paths as (o8 & H8 & Hr8 & Hj8).
  destruct create_test_volume_uint16_paths as (o16 & H16 & Hr16 & Hj16).
  destruct create_test_volume_checker_paths as (oc & Hc & Hrc & Hjc).
  exists o8, o16, oc.
  split; [exact H8|]. split; [exact H16|]. split; [exact Hc|]. intros fs.
  unfold test_data_main, run, write_file. rewrite H8, H16, Hc.
  clear H8 H16 Hc. cbn [mbind option_bind].
  rewrite Hr8, Hj8, Hr16, Hj16, Hrc, Hjc. reflexivity.
Qed.

Lemma simple_test_main_eq :
  ∃ og oc,
    create_simple_test_volume = Some og
    ∧ create_checkerboard_test = Some oc
    ∧ ∀ fs, simple_test_main fs = Some
        (<["test-data/checker_test.json" := JsonFile (metadata oc)]>
        (<["test-data/checker_test.raw" := RawFile (raw_bytes oc)]>
        (<["test-data/simple_test.json" := JsonFile (metadata og)]>
        (<["test-data/simple_test.raw" := RawFile (raw_bytes og)]> fs)))).
Proof.
  destruct create_simple_test_volume_paths as (og & Hg & Hrg & Hjg).
  destruct create_checkerboard_test_paths as (oc & Hc & Hrc & Hjc).
  exists og, oc. split; [exact Hg|]. split; [exact Hc|]. intros fs.
  unfold simple_test_main, run, write_file. rewrite Hg, Hc.
  clear Hg Hc. cbn [mbind option_bind].
  rewrite Hrg, Hjg, Hrc, Hjc. reflexivity.
Qed.

Definition test_data_paths : list string :=
  ["test_volume_uint8.raw"; "test_volume_uint8.json";
   "test_volume_uint16.raw"; "test_volume_uint16.json";
   "test_volume_checker.raw"; "test_volume_checker.json"].

Definition simple_test_paths : list string :=
  ["test-data/simple_test.raw"; "test-data/simple_test.json";
   "test-data/checker_test.raw"; "test-data/checker_test.json"].

Ltac other_paths H :=
  unfold test_data_paths, simple_test_paths in H;
  repeat (apply not_elem_of_cons in H as [? H]);
  repeat (rewrite lookup_insert_ne by (apply not_eq_sym; assumption)).





Ltac same_lookups :=
  apply map_eq; intros path; rewrite !lookup_insert;
  repeat case_decide; simplify_eq; reflexivity.



